(** * ST7735 display driver (src/old_c/ST7735.c): shallow embedding

    The driver keeps four file-scope variables ([_width], [_height],
    [colstart], [rowstart]) and talks to the panel through the transport
    functions declared in [_rust.h].  A driver function is embedded as a
    computation over the four globals that returns the list of transport
    calls it made, in order.

    Target: STM32F3 (ARM Cortex-M4), so [int] is 32 bits wide and every
    [uint8_t], [int16_t] and [uint16_t] operand is promoted to [int] before
    arithmetic and comparison.  Conversions back to a narrow type wrap
    around and are written out with [to_uint8], [to_uint16], [to_int16]. *)

From Stdlib Require Import ZArith List Lia Bool.
From Equations Require Import Equations.
Import ListNotations.
Open Scope Z_scope.

(** ** C integer conversions *)

Definition to_uint8 (z : Z) : Z := z mod 256.
Definition to_uint16 (z : Z) : Z := z mod 65536.
Definition to_int16 (z : Z) : Z := (z + 32768) mod 65536 - 32768.

Definition is_uint8 (z : Z) : Prop := 0 <= z <= 255.
Definition is_int16 (z : Z) : Prop := -32768 <= z <= 32767.

(** ** ST7735.h

    The header is not among the sources; the macros of it that the driver
    uses are parameters of the development.  [LCD_SOFT_RESET] stands for
    the [#ifdef] of that name in [commonInit]. *)

Class ST7735_h : Type := {
  ST7735_TFTWIDTH : Z;
  ST7735_TFTHEIGHT : Z;
  INITR_GREENTAB : Z;
  INITR_REDTAB : Z;
  INITR_BLACKTAB : Z;
  LCD_SOFT_RESET : bool;
  ST7735_SWRESET : Z;
  ST7735_SLPOUT : Z;
  ST7735_NORON : Z;
  ST7735_INVOFF : Z;
  ST7735_DISPON : Z;
  ST7735_CASET : Z;
  ST7735_RASET : Z;
  ST7735_RAMWR : Z;
  ST7735_MADCTL : Z;
  ST7735_COLMOD : Z;
  ST7735_FRMCTR1 : Z;
  ST7735_FRMCTR2 : Z;
  ST7735_FRMCTR3 : Z;
  ST7735_INVCTR : Z;
  ST7735_PWCTR1 : Z;
  ST7735_PWCTR2 : Z;
  ST7735_PWCTR3 : Z;
  ST7735_PWCTR4 : Z;
  ST7735_PWCTR5 : Z;
  ST7735_VMCTR1 : Z;
  ST7735_GMCTRP1 : Z;
  ST7735_GMCTRN1 : Z
}.

(** One instance, used for the examples at the end: the values of
    Adafruit's ST7735.h for the 1.8 inch panel (128 x 160), with the
    hardware reset line in use. *)
Definition adafruit_h : ST7735_h := {|
  ST7735_TFTWIDTH := 128;
  ST7735_TFTHEIGHT := 160;
  INITR_GREENTAB := 0;
  INITR_REDTAB := 1;
  INITR_BLACKTAB := 2;
  LCD_SOFT_RESET := false;
  ST7735_SWRESET := 0x01;
  ST7735_SLPOUT := 0x11;
  ST7735_NORON := 0x13;
  ST7735_INVOFF := 0x20;
  ST7735_DISPON := 0x29;
  ST7735_CASET := 0x2A;
  ST7735_RASET := 0x2B;
  ST7735_RAMWR := 0x2C;
  ST7735_MADCTL := 0x36;
  ST7735_COLMOD := 0x3A;
  ST7735_FRMCTR1 := 0xB1;
  ST7735_FRMCTR2 := 0xB2;
  ST7735_FRMCTR3 := 0xB3;
  ST7735_INVCTR := 0xB4;
  ST7735_PWCTR1 := 0xC0;
  ST7735_PWCTR2 := 0xC1;
  ST7735_PWCTR3 := 0xC2;
  ST7735_PWCTR4 := 0xC3;
  ST7735_PWCTR5 := 0xC4;
  ST7735_VMCTR1 := 0xC5;
  ST7735_GMCTRP1 := 0xE0;
  ST7735_GMCTRN1 := 0xE1
|}.

(** ** Transport port and driver state *)

(** Modelled from the spec: the transport functions, whose declarations
    are in [_rust.h], a header that is not among the sources.  The
    specification gives them as [send_command(u8)], [send_data(u8)],
    [delay_ms(u16)], reset assert and release, and chip select; an [event]
    is one call of one of them, with the argument already converted to
    the parameter's type. *)
Inductive event : Type :=
| send_cmd (b : Z)
| send_data (b : Z)
| delay (ms : Z)
| cs0
| rst0
| rst1.

(** The file-scope variables of ST7735.c. *)
Record globals : Type := mkGlobals {
  _width : Z;     (* uint16_t *)
  _height : Z;    (* uint16_t *)
  colstart : Z;   (* int *)
  rowstart : Z    (* int *)
}.

(** A driver computation: reads and updates the globals, records the
    transport calls; [None] stands for a read past the end of a command
    table, where C gives no meaning to the program. *)
Definition M (A : Type) : Type := globals -> option (A * globals * list event).

Definition ret {A} (a : A) : M A := fun g => Some (a, g, []).

Definition bind {A B} (m : M A) (f : A -> M B) : M B :=
  fun g =>
    match m g with
    | None => None
    | Some (a, g1, t1) =>
        match f a g1 with
        | None => None
        | Some (b, g2, t2) => Some (b, g2, t1 ++ t2)
        end
    end.

Notation "x <- c1 ;; c2" := (bind c1 (fun x => c2))
  (at level 61, c1 at next level, right associativity).
Notation "c1 ;; c2" := (bind c1 (fun _ => c2))
  (at level 61, right associativity).

Definition emit (e : event) : M unit := fun g => Some (tt, g, [e]).
Definition fail {A} : M A := fun _ => None.

(** Modelled from the spec: calls of the transport functions of [_rust.h],
    with the parameter types the specification gives them. *)
Definition st7735_send_cmd (b : Z) : M unit := emit (send_cmd (to_uint8 b)).
Definition st7735_send_data (b : Z) : M unit := emit (send_data (to_uint8 b)).
Definition delay_ms (ms : Z) : M unit := emit (delay (to_uint16 ms)).
Definition lcd_cs0 : M unit := emit cs0.
Definition lcd_rst0 : M unit := emit rst0.
Definition lcd_rst1 : M unit := emit rst1.

Definition set_width (w : Z) : M unit :=
  fun g => Some (tt, mkGlobals (to_uint16 w) (_height g) (colstart g) (rowstart g), []).
Definition set_height (h : Z) : M unit :=
  fun g => Some (tt, mkGlobals (_width g) (to_uint16 h) (colstart g) (rowstart g), []).
Definition set_colstart (c : Z) : M unit :=
  fun g => Some (tt, mkGlobals (_width g) (_height g) c (rowstart g), []).
Definition set_rowstart (r : Z) : M unit :=
  fun g => Some (tt, mkGlobals (_width g) (_height g) (colstart g) r, []).

(** The transport calls of a run. *)
Definition trace_of {A} (r : option (A * globals * list event)) : list event :=
  match r with Some (_, _, t) => t | None => [] end.

(** ** Loops

    The counted loops of the driver, written as the source writes them:
    the counter is tested, then decremented in its own type.  The measures
    put a counter that lies outside its type (no C variable does) above
    all others, so that the loops are total functions on [Z]. *)

Definition in_uint8 (n : Z) : bool := (0 <=? n) && (n <=? 255).
Definition in_int16 (h : Z) : bool := (-32768 <=? h) && (h <=? 32767).

Definition uint8_measure (n : Z) : nat :=
  if in_uint8 n then Z.to_nat n else Z.to_nat 256.

Definition int16_measure (h : Z) : nat :=
  if in_int16 h then Z.to_nat (to_uint16 h) else Z.to_nat 65536.

Lemma in_uint8_iff n : in_uint8 n = true <-> 0 <= n <= 255.
Proof. unfold in_uint8. rewrite andb_true_iff, !Z.leb_le. tauto. Qed.

Lemma in_int16_iff h : in_int16 h = true <-> -32768 <= h <= 32767.
Proof. unfold in_int16. rewrite andb_true_iff, !Z.leb_le. tauto. Qed.

Lemma to_uint8_range z : 0 <= to_uint8 z <= 255.
Proof. unfold to_uint8. pose proof (Z.mod_pos_bound z 256 eq_refl). lia. Qed.

Lemma to_uint16_range z : 0 <= to_uint16 z <= 65535.
Proof. unfold to_uint16. pose proof (Z.mod_pos_bound z 65536 eq_refl). lia. Qed.

Lemma to_int16_range z : -32768 <= to_int16 z <= 32767.
Proof.
  unfold to_int16. pose proof (Z.mod_pos_bound (z + 32768) 65536 eq_refl). lia.
Qed.

Lemma to_uint8_id z : 0 <= z <= 255 -> to_uint8 z = z.
Proof. intros. unfold to_uint8. apply Z.mod_small. lia. Qed.

Lemma to_uint16_id z : 0 <= z <= 65535 -> to_uint16 z = z.
Proof. intros. unfold to_uint16. apply Z.mod_small. lia. Qed.

Lemma to_int16_id z : -32768 <= z <= 32767 -> to_int16 z = z.
Proof. intros. unfold to_int16. rewrite Z.mod_small; lia. Qed.

Lemma to_uint16_neg z : -32768 <= z < 0 -> to_uint16 z = z + 65536.
Proof.
  intros. unfold to_uint16.
  replace z with (z + 65536 + (-1) * 65536) at 1 by lia.
  rewrite Z.mod_add by lia. apply Z.mod_small. lia.
Qed.

Lemma uint8_measure_step n :
  n <> 0 -> (uint8_measure (to_uint8 (n - 1)) < uint8_measure n)%nat.
Proof.
  intros Hn. unfold uint8_measure at 1.
  pose proof (to_uint8_range (n - 1)) as Hr.
  rewrite (proj2 (in_uint8_iff _) Hr).
  unfold uint8_measure. destruct (in_uint8 n) eqn:E.
  - apply in_uint8_iff in E. rewrite to_uint8_id by lia. lia.
  - lia.
Qed.

Lemma int16_measure_step h :
  h <> 0 -> (int16_measure (to_int16 (h - 1)) < int16_measure h)%nat.
Proof.
  intros Hh. unfold int16_measure at 1.
  pose proof (to_int16_range (h - 1)) as Hr.
  rewrite (proj2 (in_int16_iff _) Hr).
  pose proof (to_uint16_range (to_int16 (h - 1))) as Hu.
  unfold int16_measure. destruct (in_int16 h) eqn:E.
  - apply in_int16_iff in E.
    destruct (Z.eq_dec h (-32768)) as [->|Hm].
    + assert (E1 : to_uint16 (to_int16 (-32768 - 1)) = 32767) by reflexivity.
      assert (E2 : to_uint16 (-32768) = 32768) by reflexivity.
      rewrite E1, E2. lia.
    + rewrite (to_int16_id (h - 1)) by lia.
      destruct (Z_lt_le_dec h 0).
      * rewrite !to_uint16_neg by lia. lia.
      * rewrite !to_uint16_id by lia. lia.
  - lia.
Qed.

Lemma for_down_step v :
  0 < v -> (Z.to_nat (to_int16 (v - 1)) < Z.to_nat v)%nat.
Proof.
  intros Hv. pose proof (to_int16_range (v - 1)) as Hr.
  destruct (Z_le_gt_dec v 32768).
  - rewrite to_int16_id by lia. lia.
  - lia.
Qed.

(** [while (n--) { s = body(s); }] with [uint8_t n]; [s] stands for the
    locals that the body updates. *)
Equations? while_postdec_u8 {S : Type} (body : S -> M S) (n : Z) (s : S)
  (g : globals) : option (S * globals * list event)
  by wf (uint8_measure n) lt :=
  while_postdec_u8 body n s g with Z.eq_dec n 0 := {
    | left _ => Some (s, g, [])
    | right _ =>
        match body s g with
        | None => None
        | Some (s1, g1, t1) =>
            match while_postdec_u8 body (to_uint8 (n - 1)) s1 g1 with
            | None => None
            | Some (s2, g2, t2) => Some (s2, g2, t1 ++ t2)
            end
        end }.
Proof. now apply uint8_measure_step. Qed.

(** [while (h--) body;] with [int16_t h]: a negative [h] counts down
    through the wrap-around at -32768. *)
Equations? while_postdec_i16 (body : M unit) (h : Z)
  (g : globals) : option (unit * globals * list event)
  by wf (int16_measure h) lt :=
  while_postdec_i16 body h g with Z.eq_dec h 0 := {
    | left _ => Some (tt, g, [])
    | right _ =>
        match body g with
        | None => None
        | Some (_, g1, t1) =>
            match while_postdec_i16 body (to_int16 (h - 1)) g1 with
            | None => None
            | Some (_, g2, t2) => Some (tt, g2, t1 ++ t2)
            end
        end }.
Proof. now apply int16_measure_step. Qed.

(** [for (v = init; v > 0; v--) body;] with [int16_t v]. *)
Equations? for_down_i16 (body : M unit) (v : Z)
  (g : globals) : option (unit * globals * list event)
  by wf (Z.to_nat v) lt :=
  for_down_i16 body v g with Z_gt_le_dec v 0 := {
    | left _ =>
        match body g with
        | None => None
        | Some (_, g1, t1) =>
            match for_down_i16 body (to_int16 (v - 1)) g1 with
            | None => None
            | Some (_, g2, t2) => Some (tt, g2, t1 ++ t2)
            end
        end
    | right _ => Some (tt, g, []) }.
Proof. apply for_down_step. lia. Qed.

(** ** The driver *)

Section Driver.

Context {hdr : ST7735_h}.

Definition read_width : M Z := fun g => Some (_width g, g, []).
Definition read_height : M Z := fun g => Some (_height g, g, []).
Definition read_colstart : M Z := fun g => Some (colstart g, g, []).
Definition read_rowstart : M Z := fun g => Some (rowstart g, g, []).

(** The variables as the file initialises them. *)
Definition init_globals : globals :=
  mkGlobals (to_uint16 ST7735_TFTWIDTH) (to_uint16 ST7735_TFTHEIGHT) 0 0.

Definition DELAY : Z := 0x80.

(** A [static const uint8_t t[] = { ... }]: each initialiser is converted
    to [uint8_t]. *)
Definition uint8_array (l : list Z) : list Z := map to_uint8 l.

Definition Rcmd1 : list Z := uint8_array [
  15;
  ST7735_SWRESET;   DELAY;
  150;
  ST7735_SLPOUT ;   DELAY;
  255;
  ST7735_FRMCTR1; 3      ;
  0x01; 0x2C; 0x2D;
  ST7735_FRMCTR2; 3      ;
  0x01; 0x2C; 0x2D;
  ST7735_FRMCTR3; 6      ;
  0x01; 0x2C; 0x2D;
  0x01; 0x2C; 0x2D;
  ST7735_INVCTR ; 1      ;
  0x07;
  ST7735_PWCTR1 ; 3      ;
  0xA2;
  0x02;
  0x84;
  ST7735_PWCTR2 ; 1      ;
  0xC5;
  ST7735_PWCTR3 ; 2      ;
  0x0A;
  0x00;
  ST7735_PWCTR4 ; 2      ;
  0x8A;
  0x2A;
  ST7735_PWCTR5 ; 2      ;
  0x8A; 0xEE;
  ST7735_VMCTR1 ; 1      ;
  0x0E;
  ST7735_INVOFF ; 0      ;
  ST7735_MADCTL ; 1      ;
  0xC0;
  ST7735_COLMOD ; 1+DELAY;
  0x05;
  10 ].

Definition Rcmd2green : list Z := uint8_array [
  2;
  ST7735_CASET  ; 4      ;
  0x00; 0x02;
  0x00; 0x7F+0x02;
  ST7735_RASET  ; 4      ;
  0x00; 0x01;
  0x00; 0x9F+0x01 ].

Definition Rcmd2red : list Z := uint8_array [
  2;
  ST7735_CASET  ; 4      ;
  0x00; 0x00;
  0x00; 0x7F;
  ST7735_RASET  ; 4      ;
  0x00; 0x00;
  0x00; 0x9F ].

Definition Rcmd3 : list Z := uint8_array [
  4;
  ST7735_GMCTRP1; 16      ;
  0x02; 0x1c; 0x07; 0x12;
  0x37; 0x32; 0x29; 0x2d;
  0x29; 0x25; 0x2B; 0x39;
  0x00; 0x01; 0x03; 0x10;
  ST7735_GMCTRN1; 16      ;
  0x03; 0x1d; 0x07; 0x06;
  0x2E; 0x2C; 0x29; 0x2D;
  0x2E; 0x2E; 0x37; 0x3F;
  0x00; 0x00; 0x02; 0x10;
  ST7735_NORON  ;    DELAY;
  10;
  ST7735_DISPON ;    DELAY;
  100 ].

(** [*addr++] on a [const uint8_t *]: the pointer [addr] is the part of
    the table from the pointer onwards, and what is read is a [uint8_t]. *)
Definition read_inc (addr : list Z) : M (Z * list Z) :=
  match addr with
  | [] => fail
  | b :: rest => ret (to_uint8 b, rest)
  end.

(** Body of the inner loop of [commandList]. *)
Definition commandList_arg (addr : list Z) : M (list Z) :=
  r <- read_inc addr ;;
  st7735_send_data (fst r) ;;
  ret (snd r).

(** Body of the outer loop of [commandList]. *)
Definition commandList_cmd (addr : list Z) : M (list Z) :=
  r <- read_inc addr ;;
  st7735_send_cmd (fst r) ;;
  r <- read_inc (snd r) ;;
  let numArgs := fst r in
  let ms := to_uint16 (Z.land numArgs DELAY) in
  let numArgs := to_uint8 (Z.land numArgs (Z.lnot DELAY)) in
  addr <- while_postdec_u8 commandList_arg numArgs (snd r) ;;
  if ms =? 0 then ret addr
  else
    r <- read_inc addr ;;
    let ms := fst r in
    let ms := if ms =? 255 then 500 else ms in
    delay_ms ms ;;
    ret (snd r).

Definition commandList (addr : list Z) : M unit :=
  r <- read_inc addr ;;
  let numCommands := fst r in
  while_postdec_u8 commandList_cmd numCommands (snd r) ;;
  ret tt.

(** [cmdList] may be the null pointer: [None]. *)
Definition commonInit (cmdList : option (list Z)) : M unit :=
  lcd_cs0 ;;
  (if LCD_SOFT_RESET then
     st7735_send_cmd ST7735_SWRESET ;;
     delay_ms 500
   else
     lcd_rst1 ;;
     delay_ms 500 ;;
     lcd_rst0 ;;
     delay_ms 500 ;;
     lcd_rst1 ;;
     delay_ms 500) ;;
  match cmdList with
  | Some l => commandList l
  | None => ret tt
  end.

Definition _st7735_initR (options : Z) : M unit :=
  let options := to_uint8 options in
  delay_ms 50 ;;
  commonInit (Some Rcmd1) ;;
  (if options =? INITR_GREENTAB then
     commandList Rcmd2green ;;
     set_colstart 2 ;;
     set_rowstart 1
   else
     commandList Rcmd2red) ;;
  commandList Rcmd3 ;;
  if options =? INITR_BLACKTAB then
    st7735_send_cmd ST7735_MADCTL ;;
    st7735_send_data 0xC0
  else ret tt.

Definition _st7735_setAddrWindow (x0 y0 x1 y1 : Z) : M unit :=
  let x0 := to_uint8 x0 in
  let y0 := to_uint8 y0 in
  let x1 := to_uint8 x1 in
  let y1 := to_uint8 y1 in
  st7735_send_cmd ST7735_CASET ;;
  st7735_send_data 0x00 ;;
  cs <- read_colstart ;;
  st7735_send_data (x0 + cs) ;;
  st7735_send_data 0x00 ;;
  cs <- read_colstart ;;
  st7735_send_data (x1 + cs) ;;
  st7735_send_cmd ST7735_RASET ;;
  st7735_send_data 0x00 ;;
  rs <- read_rowstart ;;
  st7735_send_data (y0 + rs) ;;
  st7735_send_data 0x00 ;;
  rs <- read_rowstart ;;
  st7735_send_data (y1 + rs) ;;
  st7735_send_cmd ST7735_RAMWR.

Definition _st7735_pushColor (color : Z) : M unit :=
  let color := to_uint16 color in
  st7735_send_data (Z.shiftr color 8) ;;
  st7735_send_data (Z.land color 0xff).

Definition _st7735_drawPixel (x y color : Z) : M unit :=
  let x := to_int16 x in
  let y := to_int16 y in
  W <- read_width ;;
  H <- read_height ;;
  if (x <? 0) || (x >=? W) || (y <? 0) || (y >=? H) then ret tt
  else
    _st7735_setAddrWindow x y (x + 1) (y + 1) ;;
    _st7735_pushColor color.

Definition _st7735_drawFastVLine (x y h color : Z) : M unit :=
  let x := to_int16 x in
  let y := to_int16 y in
  let h := to_int16 h in
  W <- read_width ;;
  H <- read_height ;;
  if (x >=? W) || (y >=? H) then ret tt
  else
    let h := if y + h - 1 >=? H then to_int16 (H - y) else h in
    _st7735_setAddrWindow x y x (y + h - 1) ;;
    while_postdec_i16 (_st7735_pushColor color) h.

Definition _st7735_drawFastHLine (x y w color : Z) : M unit :=
  let x := to_int16 x in
  let y := to_int16 y in
  let w := to_int16 w in
  W <- read_width ;;
  H <- read_height ;;
  if (x >=? W) || (y >=? H) then ret tt
  else
    let w := if x + w - 1 >=? W then to_int16 (W - x) else w in
    _st7735_setAddrWindow x y (x + w - 1) y ;;
    while_postdec_i16 (_st7735_pushColor color) w.

Definition _st7735_fillRect (x y w h color : Z) : M unit :=
  let x := to_int16 x in
  let y := to_int16 y in
  let w := to_int16 w in
  let h := to_int16 h in
  W <- read_width ;;
  H <- read_height ;;
  if (x >=? W) || (y >=? H) then ret tt
  else
    let w := if x + w - 1 >=? W then to_int16 (W - x) else w in
    let h := if y + h - 1 >=? H then to_int16 (H - y) else h in
    _st7735_setAddrWindow x y (x + w - 1) (y + h - 1) ;;
    for_down_i16 (for_down_i16 (_st7735_pushColor color) w) h.

Definition _st7735_fillScreen (color : Z) : M unit :=
  W <- read_width ;;
  H <- read_height ;;
  _st7735_fillRect 0 0 W H color.

Definition MADCTL_MY : Z := 0x80.
Definition MADCTL_MX : Z := 0x40.
Definition MADCTL_MV : Z := 0x20.
Definition MADCTL_ML : Z := 0x10.
Definition MADCTL_RGB : Z := 0x00.
Definition MADCTL_BGR : Z := 0x08.
Definition MADCTL_MH : Z := 0x04.

Definition _st7735_setRotation (m : Z) : M unit :=
  let m := to_uint8 m in
  let rotation := to_uint8 (Z.rem m 4) in
  st7735_send_cmd ST7735_MADCTL ;;
  match rotation with
  | 0 =>
      st7735_send_data (Z.lor (Z.lor MADCTL_MX MADCTL_MY) MADCTL_RGB) ;;
      set_width ST7735_TFTWIDTH ;;
      set_height ST7735_TFTHEIGHT
  | 1 =>
      st7735_send_data (Z.lor (Z.lor MADCTL_MY MADCTL_MV) MADCTL_RGB) ;;
      set_width ST7735_TFTHEIGHT ;;
      set_height ST7735_TFTWIDTH
  | 2 =>
      st7735_send_data MADCTL_RGB ;;
      set_width ST7735_TFTWIDTH ;;
      set_height ST7735_TFTHEIGHT
  | 3 =>
      st7735_send_data (Z.lor (Z.lor MADCTL_MX MADCTL_MV) MADCTL_RGB) ;;
      set_width ST7735_TFTHEIGHT ;;
      set_height ST7735_TFTWIDTH
  | _ => ret tt
  end.

Definition _st7735_get_height : M Z :=
  H <- read_height ;; ret (to_uint8 H).

Definition _st7735_get_width : M Z :=
  W <- read_width ;; ret (to_uint8 W).

End Driver.

(** ** What the specification calls things *)

(** A decoded command-table entry: opcode, trailing arguments, and the
    encoded post-command delay byte when the delay flag is set. *)
Record CommandEntry : Type := mkEntry {
  opcode : Z;
  args : list Z;
  post_delay : option Z
}.

(** The delay rule in the specification's words: the literal 255 means
    500 ms, every other encoded value is used as it is. *)
Definition sleep_ms (v : Z) : Z := if v =? 255 then 500 else v.

(** Transport calls the specification asks for when one entry is replayed. *)
Definition replay_entry (e : CommandEntry) : list event :=
  send_cmd (to_uint8 (opcode e))
    :: map (fun a => send_data (to_uint8 a)) (args e)
    ++ match post_delay e with
       | Some v => [delay (sleep_ms v)]
       | None => []
       end.

Definition replay (es : list CommandEntry) : list event :=
  flat_map replay_entry es.

(** The table encoding: opcode, control byte (bit 7 set when a delay
    follows, argument count in bits 0-6), arguments, delay byte if any. *)
Definition encode_entry (e : CommandEntry) : list Z :=
  to_uint8 (opcode e)
    :: (Z.of_nat (length (args e))
        + match post_delay e with Some _ => 128 | None => 0 end)
    :: map to_uint8 (args e)
    ++ match post_delay e with
       | Some v => [v]
       | None => []
       end.

Definition encode_table (es : list CommandEntry) : list Z :=
  Z.of_nat (length es) :: flat_map encode_entry es.

Definition entry_ok (e : CommandEntry) : Prop :=
  (length (args e) <= 127)%nat /\
  match post_delay e with
  | Some v => 0 <= v <= 255
  | None => True
  end.

Definition table_ok (es : list CommandEntry) : Prop :=
  (length es <= 255)%nat /\ Forall entry_ok es.

(** Transport calls of one colour push: high byte, then low byte. *)
Definition push_events (color : Z) : list event :=
  [ send_data (to_uint8 (Z.shiftr (to_uint16 color) 8));
    send_data (to_uint8 (Z.land (to_uint16 color) 0xff)) ].

Definition pushes (n : nat) (color : Z) : list event :=
  concat (repeat (push_events color) n).

(** A body that leaves the globals alone and always makes the same
    transport calls, as a colour push does. *)
Definition steady (body : M unit) (t : list event) : Prop :=
  forall g, body g = Some (tt, g, t).

(** The computation returns, and [colstart] and [rowstart] are afterwards
    what they were before. *)
Definition keeps_offsets {A} (m : M A) : Prop :=
  forall g, exists a g' t,
    m g = Some (a, g', t) /\
    colstart g' = colstart g /\ rowstart g' = rowstart g.

Definition start_out_of_bounds (g : globals) (x y : Z) : Prop :=
  x < 0 \/ x >= _width g \/ y < 0 \/ y >= _height g.

Definition start_in_bounds (g : globals) (x y : Z) : Prop :=
  0 <= x < _width g /\ 0 <= y < _height g.

(** Memory-access-control byte of each effective rotation. *)
Definition madctl_of_rotation (r : Z) : Z :=
  match r with
  | 0 => 0xC0
  | 1 => 0xA0
  | 2 => 0x00
  | _ => 0x60
  end.

Definition odd_rotation (r : Z) : bool := (r =? 1) || (r =? 3).

Section Spec.

Context {hdr : ST7735_h}.

(** Transport calls of an address-window setup for the window
    [(x0, y0) .. (x1, y1)] under the offsets [cs], [rs]: column address
    set, row address set, memory write. *)
Definition addr_window (cs rs x0 y0 x1 y1 : Z) : list event :=
  [ send_cmd (to_uint8 ST7735_CASET);
    send_data 0; send_data (to_uint8 (x0 + cs));
    send_data 0; send_data (to_uint8 (x1 + cs));
    send_cmd (to_uint8 ST7735_RASET);
    send_data 0; send_data (to_uint8 (y0 + rs));
    send_data 0; send_data (to_uint8 (y1 + rs));
    send_cmd (to_uint8 ST7735_RAMWR) ].

(** The reset sequence of [commonInit]. *)
Definition reset_events : list event :=
  cs0 :: if LCD_SOFT_RESET
         then [send_cmd (to_uint8 ST7735_SWRESET); delay 500]
         else [rst1; delay 500; rst0; delay 500; rst1; delay 500].

(** The command tables, decoded. *)
Definition Rcmd1_entries : list CommandEntry := [
  mkEntry ST7735_SWRESET [] (Some 150);
  mkEntry ST7735_SLPOUT [] (Some 255);
  mkEntry ST7735_FRMCTR1 [0x01; 0x2C; 0x2D] None;
  mkEntry ST7735_FRMCTR2 [0x01; 0x2C; 0x2D] None;
  mkEntry ST7735_FRMCTR3 [0x01; 0x2C; 0x2D; 0x01; 0x2C; 0x2D] None;
  mkEntry ST7735_INVCTR [0x07] None;
  mkEntry ST7735_PWCTR1 [0xA2; 0x02; 0x84] None;
  mkEntry ST7735_PWCTR2 [0xC5] None;
  mkEntry ST7735_PWCTR3 [0x0A; 0x00] None;
  mkEntry ST7735_PWCTR4 [0x8A; 0x2A] None;
  mkEntry ST7735_PWCTR5 [0x8A; 0xEE] None;
  mkEntry ST7735_VMCTR1 [0x0E] None;
  mkEntry ST7735_INVOFF [] None;
  mkEntry ST7735_MADCTL [0xC0] None;
  mkEntry ST7735_COLMOD [0x05] (Some 10) ].

Definition Rcmd2green_entries : list CommandEntry := [
  mkEntry ST7735_CASET [0x00; 0x02; 0x00; 0x81] None;
  mkEntry ST7735_RASET [0x00; 0x01; 0x00; 0xA0] None ].

Definition Rcmd2red_entries : list CommandEntry := [
  mkEntry ST7735_CASET [0x00; 0x00; 0x00; 0x7F] None;
  mkEntry ST7735_RASET [0x00; 0x00; 0x00; 0x9F] None ].

Definition Rcmd3_entries : list CommandEntry := [
  mkEntry ST7735_GMCTRP1
    [0x02; 0x1c; 0x07; 0x12; 0x37; 0x32; 0x29; 0x2d;
     0x29; 0x25; 0x2B; 0x39; 0x00; 0x01; 0x03; 0x10] None;
  mkEntry ST7735_GMCTRN1
    [0x03; 0x1d; 0x07; 0x06; 0x2E; 0x2C; 0x29; 0x2D;
     0x2E; 0x2E; 0x37; 0x3F; 0x00; 0x00; 0x02; 0x10] None;
  mkEntry ST7735_NORON [] (Some 10);
  mkEntry ST7735_DISPON [] (Some 100) ].

(** The operations of the public API that follow initialisation. *)
Inductive operation : Type :=
| op_set_rotation (m : Z)
| op_set_address_window (x0 y0 x1 y1 : Z)
| op_draw_pixel (x y color : Z)
| op_draw_fast_hline (x y w color : Z)
| op_draw_fast_vline (x y h color : Z)
| op_fill_rect (x y w h color : Z)
| op_fill_screen (color : Z)
| op_push_color (color : Z)
| op_get_width
| op_get_height.

Definition run_operation (o : operation) : M unit :=
  match o with
  | op_set_rotation m => _st7735_setRotation m
  | op_set_address_window x0 y0 x1 y1 => _st7735_setAddrWindow x0 y0 x1 y1
  | op_draw_pixel x y c => _st7735_drawPixel x y c
  | op_draw_fast_hline x y w c => _st7735_drawFastHLine x y w c
  | op_draw_fast_vline x y h c => _st7735_drawFastVLine x y h c
  | op_fill_rect x y w h c => _st7735_fillRect x y w h c
  | op_fill_screen c => _st7735_fillScreen c
  | op_push_color c => _st7735_pushColor c
  | op_get_width => _st7735_get_width ;; ret tt
  | op_get_height => _st7735_get_height ;; ret tt
  end.

Fixpoint run_operations (os : list operation) : M unit :=
  match os with
  | [] => ret tt
  | o :: os' => run_operation o ;; run_operations os'
  end.

End Spec.

(** ** Loop lemmas *)

Lemma while_postdec_u8_step {S : Type} (body : S -> M S) n s g :
  while_postdec_u8 body n s g =
  if Z.eq_dec n 0 then Some (s, g, [])
  else match body s g with
       | None => None
       | Some (s1, g1, t1) =>
           match while_postdec_u8 body (to_uint8 (n - 1)) s1 g1 with
           | None => None
           | Some (s2, g2, t2) => Some (s2, g2, t1 ++ t2)
           end
       end.
Proof.
  rewrite while_postdec_u8_equation_1.
  destruct (Z.eq_dec n 0); reflexivity.
Qed.

Lemma while_postdec_i16_step body h g :
  while_postdec_i16 body h g =
  if Z.eq_dec h 0 then Some (tt, g, [])
  else match body g with
       | None => None
       | Some (_, g1, t1) =>
           match while_postdec_i16 body (to_int16 (h - 1)) g1 with
           | None => None
           | Some (_, g2, t2) => Some (tt, g2, t1 ++ t2)
           end
       end.
Proof.
  rewrite while_postdec_i16_equation_1.
  destruct (Z.eq_dec h 0); reflexivity.
Qed.

Lemma for_down_i16_step body v g :
  for_down_i16 body v g =
  if Z_gt_le_dec v 0 then
    match body g with
    | None => None
    | Some (_, g1, t1) =>
        match for_down_i16 body (to_int16 (v - 1)) g1 with
        | None => None
        | Some (_, g2, t2) => Some (tt, g2, t1 ++ t2)
        end
    end
  else Some (tt, g, []).
Proof.
  rewrite for_down_i16_equation_1.
  destruct (Z_gt_le_dec v 0); reflexivity.
Qed.

Lemma to_uint16_pred h :
  is_int16 h -> h <> 0 -> to_uint16 (to_int16 (h - 1)) = to_uint16 h - 1.
Proof.
  unfold is_int16. intros Hr Hh.
  destruct (Z.eq_dec h (-32768)) as [->|Hm]; [reflexivity|].
  rewrite (to_int16_id (h - 1)) by lia.
  destruct (Z_lt_le_dec h 0).
  - rewrite !to_uint16_neg by lia. lia.
  - rewrite !to_uint16_id by lia. lia.
Qed.

Lemma to_uint16_zero h : is_int16 h -> to_uint16 h = 0 -> h = 0.
Proof.
  unfold is_int16. intros Hr E.
  destruct (Z_lt_le_dec h 0).
  - rewrite to_uint16_neg in E by lia. lia.
  - rewrite to_uint16_id in E by lia. lia.
Qed.

(** [while (h--) body;] runs the body [(uint16_t) h] times. *)
Lemma while_postdec_i16_count body t :
  steady body t ->
  forall h g, is_int16 h ->
    while_postdec_i16 body h g
    = Some (tt, g, concat (repeat t (Z.to_nat (to_uint16 h)))).
Proof.
  intros Hb h g Hr.
  remember (Z.to_nat (to_uint16 h)) as n eqn:En.
  revert h Hr En. induction n as [|n IH]; intros h Hr En.
  - assert (h = 0) as ->.
    { apply to_uint16_zero; [assumption|].
      pose proof (to_uint16_range h). lia. }
    rewrite while_postdec_i16_step. reflexivity.
  - assert (Hh : h <> 0) by (intros ->; discriminate En).
    rewrite while_postdec_i16_step.
    destruct (Z.eq_dec h 0) as [E|_]; [contradiction|].
    rewrite Hb, (IH (to_int16 (h - 1))).
    + reflexivity.
    + apply to_int16_range.
    + rewrite to_uint16_pred by assumption. lia.
Qed.

(** [for (v = n; v > 0; v--) body;] runs the body [n] times, and not at
    all when [n] is not positive. *)
Lemma for_down_i16_count body t :
  steady body t ->
  forall v g, v <= 32767 ->
    for_down_i16 body v g = Some (tt, g, concat (repeat t (Z.to_nat v))).
Proof.
  intros Hb v g Hr.
  remember (Z.to_nat v) as n eqn:En.
  revert v Hr En. induction n as [|n IH]; intros v Hr En.
  - rewrite for_down_i16_step.
    destruct (Z_gt_le_dec v 0); [lia|reflexivity].
  - rewrite for_down_i16_step.
    destruct (Z_gt_le_dec v 0); [|lia].
    rewrite Hb, (IH (to_int16 (v - 1))).
    + reflexivity.
    + pose proof (to_int16_range (v - 1)). lia.
    + rewrite to_int16_id by lia. lia.
Qed.

Lemma for_down_i16_steady body t v :
  steady body t -> v <= 32767 ->
  steady (for_down_i16 body v) (concat (repeat t (Z.to_nat v))).
Proof. intros Hb Hv g. now apply for_down_i16_count. Qed.

Lemma concat_repeat_app (t : list event) (n m : nat) :
  concat (repeat t (n + m)) = concat (repeat t n) ++ concat (repeat t m).
Proof.
  induction n as [|n IH]; simpl; [reflexivity|].
  now rewrite IH, app_assoc.
Qed.

Lemma concat_repeat_mul (t : list event) (n m : nat) :
  concat (repeat (concat (repeat t n)) m) = concat (repeat t (n * m)).
Proof.
  induction m as [|m IH]; simpl.
  - now rewrite Nat.mul_0_r.
  - rewrite IH, <- concat_repeat_app. f_equal. f_equal. lia.
Qed.

(** ** The command sequencer *)

Lemma bind_run {A B} (m : M A) (f : A -> M B) g a g1 t1 b g2 t2 :
  m g = Some (a, g1, t1) ->
  f a g1 = Some (b, g2, t2) ->
  bind m f g = Some (b, g2, t1 ++ t2).
Proof. intros Hm Hf. unfold bind. now rewrite Hm, Hf. Qed.

Lemma to_uint8_idem z : to_uint8 (to_uint8 z) = to_uint8 z.
Proof. unfold to_uint8. apply Z.mod_mod. lia. Qed.

(** Splitting the control byte into delay flag and argument count. *)
Lemma control_byte_bits k :
  0 <= k <= 127 ->
  Z.land k DELAY = 0 /\
  Z.land (k + 128) DELAY = 128 /\
  Z.land k (Z.lnot DELAY) = k /\
  Z.land (k + 128) (Z.lnot DELAY) = k.
Proof.
  intros Hk.
  assert (Hall : forallb (fun k =>
            (Z.land k DELAY =? 0) && (Z.land (k + 128) DELAY =? 128) &&
            (Z.land k (Z.lnot DELAY) =? k) &&
            (Z.land (k + 128) (Z.lnot DELAY) =? k))
          (map Z.of_nat (seq 0 128)) = true) by (vm_compute; reflexivity).
  rewrite forallb_forall in Hall. specialize (Hall k).
  rewrite !andb_true_iff, !Z.eqb_eq in Hall.
  assert (Hin : In k (map Z.of_nat (seq 0 128))).
  { apply in_map_iff. exists (Z.to_nat k). split; [lia|].
    apply in_seq. lia. }
  specialize (Hall Hin). tauto.
Qed.

Lemma commandList_args_run (l rest : list Z) g :
  (length l <= 255)%nat ->
  while_postdec_u8 commandList_arg (Z.of_nat (length l)) (l ++ rest) g
  = Some (rest, g, map (fun b => send_data (to_uint8 b)) l).
Proof.
  revert g. induction l as [|b l IH]; intros g Hlen.
  - rewrite while_postdec_u8_step. reflexivity.
  - rewrite while_postdec_u8_step.
    destruct (Z.eq_dec (Z.of_nat (length (b :: l))) 0) as [E|_];
      [simpl in E; lia|].
    simpl in Hlen.
    replace (to_uint8 (Z.of_nat (length (b :: l)) - 1))
      with (Z.of_nat (length l))
      by (simpl length; rewrite to_uint8_id; lia).
    change (commandList_arg ((b :: l) ++ rest) g)
      with (Some (l ++ rest, g, [send_data (to_uint8 (to_uint8 b))])).
    cbn iota. rewrite IH by lia. now rewrite to_uint8_idem.
Qed.

Lemma commandList_cmd_run (e : CommandEntry) (rest : list Z) g :
  entry_ok e ->
  commandList_cmd (encode_entry e ++ rest) g = Some (rest, g, replay_entry e).
Proof.
  intros [Hlen Hdel].
  destruct e as [op ar pd]. cbn [args post_delay opcode] in *.
  unfold commandList_cmd, encode_entry, replay_entry.
  cbn [args post_delay opcode app read_inc].
  assert (Hk : 0 <= Z.of_nat (length ar) <= 127) by lia.
  destruct (control_byte_bits _ Hk) as (B1 & B2 & B3 & B4).
  assert (Hargs : forall tl g,
    while_postdec_u8 commandList_arg (Z.of_nat (length ar))
      ((map to_uint8 ar ++ tl)) g
    = Some (tl, g, map (fun a => send_data (to_uint8 a)) ar)).
  { intros tl g0.
    rewrite <- (length_map to_uint8 ar).
    rewrite commandList_args_run by (rewrite length_map; lia).
    rewrite map_map. do 2 f_equal.
    apply map_ext. intros a. now rewrite to_uint8_idem. }
  unfold bind, read_inc, fail, st7735_send_cmd, st7735_send_data,
    delay_ms, emit; unfold ret.
  destruct pd as [v|]; cbn [app fst snd].
  - rewrite (to_uint8_id (Z.of_nat (length ar) + 128)) by lia.
    rewrite B2, B4. rewrite (to_uint8_id (Z.of_nat (length ar))) by lia.
    rewrite <- app_assoc. rewrite Hargs.
    change (to_uint16 128 =? 0) with false. cbn [app fst snd].
    rewrite (to_uint8_id v) by lia.
    unfold sleep_ms.
    rewrite !to_uint8_idem.
    destruct (v =? 255) eqn:Ev.
    + reflexivity.
    + rewrite (to_uint16_id v) by lia. reflexivity.
  - rewrite Z.add_0_r.
    rewrite (to_uint8_id (Z.of_nat (length ar))) by lia.
    rewrite B1, B3.
    rewrite (to_uint8_id (Z.of_nat (length ar))) by lia.
    rewrite (app_nil_r (map to_uint8 ar)), Hargs.
    change (to_uint16 0 =? 0) with true. cbn [app fst snd].
    rewrite !to_uint8_idem, !app_nil_r. reflexivity.
Qed.

Lemma commandList_cmds_run (es : list CommandEntry) (rest : list Z) g :
  (length es <= 255)%nat -> Forall entry_ok es ->
  while_postdec_u8 commandList_cmd (Z.of_nat (length es))
    (flat_map encode_entry es ++ rest) g
  = Some (rest, g, replay es).
Proof.
  revert g. induction es as [|e es IH]; intros g Hlen Hok.
  - rewrite while_postdec_u8_step. reflexivity.
  - rewrite while_postdec_u8_step.
    destruct (Z.eq_dec (Z.of_nat (length (e :: es))) 0) as [E|_];
      [simpl in E; lia|].
    simpl in Hlen. inversion Hok as [|? ? He Hes]; subst.
    replace (to_uint8 (Z.of_nat (length (e :: es)) - 1))
      with (Z.of_nat (length es))
      by (simpl length; rewrite to_uint8_id; lia).
    cbn [flat_map]. rewrite <- app_assoc.
    rewrite commandList_cmd_run by assumption.
    rewrite IH by (assumption || lia). reflexivity.
Qed.

(** The sequencer, run on the encoding of a table, makes the transport
    calls of the table's replay and leaves the globals alone. *)
Lemma commandList_encode (es : list CommandEntry) g :
  table_ok es ->
  commandList (encode_table es) g = Some (tt, g, replay es).
Proof.
  intros [Hlen Hok]. unfold commandList, encode_table.
  eapply eq_trans.
  - eapply bind_run; [reflexivity|]. cbn [fst snd].
    eapply bind_run; [|reflexivity].
    rewrite to_uint8_id by lia.
    rewrite <- (app_nil_r (flat_map encode_entry es)).
    now apply commandList_cmds_run.
  - cbn [app]. now rewrite app_nil_r.
Qed.

Section Tables.

Context {hdr : ST7735_h}.

Lemma Rcmd1_encoded : Rcmd1 = encode_table Rcmd1_entries.
Proof. reflexivity. Qed.

Lemma Rcmd2green_encoded : Rcmd2green = encode_table Rcmd2green_entries.
Proof. reflexivity. Qed.

Lemma Rcmd2red_encoded : Rcmd2red = encode_table Rcmd2red_entries.
Proof. reflexivity. Qed.

Lemma Rcmd3_encoded : Rcmd3 = encode_table Rcmd3_entries.
Proof. reflexivity. Qed.

Ltac table_ok_tac :=
  split; [simpl; lia | repeat constructor; simpl; lia].

Lemma Rcmd1_ok : table_ok Rcmd1_entries.
Proof. table_ok_tac. Qed.

Lemma Rcmd2green_ok : table_ok Rcmd2green_entries.
Proof. table_ok_tac. Qed.

Lemma Rcmd2red_ok : table_ok Rcmd2red_entries.
Proof. table_ok_tac. Qed.

Lemma Rcmd3_ok : table_ok Rcmd3_entries.
Proof. table_ok_tac. Qed.

Lemma commandList_Rcmd1 g :
  commandList Rcmd1 g = Some (tt, g, replay Rcmd1_entries).
Proof. rewrite Rcmd1_encoded. apply commandList_encode, Rcmd1_ok. Qed.

Lemma commandList_Rcmd2green g :
  commandList Rcmd2green g = Some (tt, g, replay Rcmd2green_entries).
Proof. rewrite Rcmd2green_encoded. apply commandList_encode, Rcmd2green_ok. Qed.

Lemma commandList_Rcmd2red g :
  commandList Rcmd2red g = Some (tt, g, replay Rcmd2red_entries).
Proof. rewrite Rcmd2red_encoded. apply commandList_encode, Rcmd2red_ok. Qed.

Lemma commandList_Rcmd3 g :
  commandList Rcmd3 g = Some (tt, g, replay Rcmd3_entries).
Proof. rewrite Rcmd3_encoded. apply commandList_encode, Rcmd3_ok. Qed.

Lemma commonInit_Rcmd1 g :
  commonInit (Some Rcmd1) g
  = Some (tt, g, reset_events ++ replay Rcmd1_entries).
Proof.
  unfold commonInit, reset_events.
  destruct LCD_SOFT_RESET.
  - unfold bind at 1 2. cbn -[commandList Rcmd1 replay].
    unfold bind. cbn -[commandList Rcmd1 replay].
    now rewrite commandList_Rcmd1.
  - unfold bind. cbn -[commandList Rcmd1 replay].
    now rewrite commandList_Rcmd1.
Qed.

End Tables.

(** ** Initialisation *)

Section Init.

Context {hdr : ST7735_h}.

(** [_st7735_initR] never fails; its transport calls and the globals it
    leaves, for every [options]. *)
Lemma initR_run options g :
  _st7735_initR options g
  = Some (tt,
          (if to_uint8 options =? INITR_GREENTAB
           then mkGlobals (_width g) (_height g) 2 1 else g),
          delay 50 :: reset_events
            ++ replay Rcmd1_entries
            ++ replay (if to_uint8 options =? INITR_GREENTAB
                       then Rcmd2green_entries else Rcmd2red_entries)
            ++ replay Rcmd3_entries
            ++ (if to_uint8 options =? INITR_BLACKTAB
                then [send_cmd (to_uint8 ST7735_MADCTL); send_data 0xC0]
                else [])).
Proof.
  unfold _st7735_initR. cbv zeta.
  assert (Hpre : forall (k : M unit) g2 t2,
    k g = Some (tt, g2, t2) ->
    (delay_ms 50 ;; commonInit (Some Rcmd1) ;; k) g
    = Some (tt, g2, delay 50 :: reset_events ++ replay Rcmd1_entries ++ t2)).
  { intros k g2 t2 Hk. eapply eq_trans.
    - eapply bind_run; [reflexivity|].
      eapply bind_run; [apply commonInit_Rcmd1|exact Hk].
    - cbn [app]. now rewrite <- app_assoc. }
  assert (Hgreen : forall g0,
    (commandList Rcmd2green ;; set_colstart 2 ;; set_rowstart 1) g0
    = Some (tt, mkGlobals (_width g0) (_height g0) 2 1,
            replay Rcmd2green_entries)).
  { intros g0. eapply eq_trans.
    - eapply bind_run; [apply commandList_Rcmd2green|].
      eapply bind_run; reflexivity.
    - cbn [app]. now rewrite app_nil_r. }
  assert (Hblack :
    forall g0, (st7735_send_cmd ST7735_MADCTL ;; st7735_send_data 0xC0) g0
    = Some (tt, g0, [send_cmd (to_uint8 ST7735_MADCTL); send_data 0xC0]))
    by reflexivity.
  destruct (to_uint8 options =? INITR_GREENTAB),
           (to_uint8 options =? INITR_BLACKTAB); apply Hpre.
  - eapply bind_run; [apply Hgreen|].
    eapply bind_run; [apply commandList_Rcmd3|apply Hblack].
  - eapply eq_trans.
    + eapply bind_run; [apply Hgreen|].
      eapply bind_run; [apply commandList_Rcmd3|reflexivity].
    + reflexivity.
  - eapply bind_run; [apply commandList_Rcmd2red|].
    eapply bind_run; [apply commandList_Rcmd3|apply Hblack].
  - eapply eq_trans.
    + eapply bind_run; [apply commandList_Rcmd2red|].
      eapply bind_run; [apply commandList_Rcmd3|reflexivity].
    + reflexivity.
Qed.

End Init.

(** ** Address window, colour push and the drawing primitives *)

Section Drawing.

Context {hdr : ST7735_h}.

Lemma bind_read_width {B} (k : Z -> M B) g :
  bind read_width k g = k (_width g) g.
Proof.
  unfold bind, read_width. destruct (k (_width g) g) as [[[b g2] t2]|];
    reflexivity.
Qed.

Lemma bind_read_height {B} (k : Z -> M B) g :
  bind read_height k g = k (_height g) g.
Proof.
  unfold bind, read_height. destruct (k (_height g) g) as [[[b g2] t2]|];
    reflexivity.
Qed.

Lemma to_uint8_add_l a b : to_uint8 (to_uint8 a + b) = to_uint8 (a + b).
Proof. unfold to_uint8. apply Zplus_mod_idemp_l. Qed.

Lemma setAddrWindow_run x0 y0 x1 y1 g :
  _st7735_setAddrWindow x0 y0 x1 y1 g
  = Some (tt, g, addr_window (colstart g) (rowstart g) x0 y0 x1 y1).
Proof.
  unfold _st7735_setAddrWindow, addr_window, bind, read_colstart,
    read_rowstart, st7735_send_cmd, st7735_send_data, emit.
  cbn [app]. rewrite !to_uint8_add_l. reflexivity.
Qed.

Lemma pushColor_run color g :
  _st7735_pushColor color g = Some (tt, g, push_events color).
Proof. reflexivity. Qed.

Lemma pushColor_steady color :
  steady (_st7735_pushColor color) (push_events color).
Proof. intros g. apply pushColor_run. Qed.

Lemma drawPixel_run x y color g :
  is_int16 x -> is_int16 y ->
  _st7735_drawPixel x y color g
  = if (x <? 0) || (x >=? _width g) || (y <? 0) || (y >=? _height g)
    then Some (tt, g, [])
    else Some (tt, g,
               addr_window (colstart g) (rowstart g) x y (x + 1) (y + 1)
                 ++ push_events color).
Proof.
  intros Hx Hy. unfold _st7735_drawPixel. cbv zeta.
  rewrite (to_int16_id x), (to_int16_id y) by assumption.
  rewrite bind_read_width, bind_read_height.
  destruct ((x <? 0) || (x >=? _width g) || (y <? 0) || (y >=? _height g));
    [reflexivity|].
  eapply bind_run; [apply setAddrWindow_run|apply pushColor_run].
Qed.

Lemma drawFastVLine_run x y h color g :
  is_int16 x -> is_int16 y -> is_int16 h ->
  _st7735_drawFastVLine x y h color g
  = if (x >=? _width g) || (y >=? _height g)
    then Some (tt, g, [])
    else
      let h' := if y + h - 1 >=? _height g
                then to_int16 (_height g - y) else h in
      Some (tt, g,
            addr_window (colstart g) (rowstart g) x y x (y + h' - 1)
              ++ pushes (Z.to_nat (to_uint16 h')) color).
Proof.
  intros Hx Hy Hh. unfold _st7735_drawFastVLine. cbv zeta.
  rewrite (to_int16_id x), (to_int16_id y), (to_int16_id h) by assumption.
  rewrite bind_read_width, bind_read_height.
  destruct ((x >=? _width g) || (y >=? _height g)); [reflexivity|].
  eapply bind_run; [apply setAddrWindow_run|].
  apply while_postdec_i16_count; [apply pushColor_steady|].
  destruct (y + h - 1 >=? _height g); [apply to_int16_range|assumption].
Qed.

Lemma drawFastHLine_run x y w color g :
  is_int16 x -> is_int16 y -> is_int16 w ->
  _st7735_drawFastHLine x y w color g
  = if (x >=? _width g) || (y >=? _height g)
    then Some (tt, g, [])
    else
      let w' := if x + w - 1 >=? _width g
                then to_int16 (_width g - x) else w in
      Some (tt, g,
            addr_window (colstart g) (rowstart g) x y (x + w' - 1) y
              ++ pushes (Z.to_nat (to_uint16 w')) color).
Proof.
  intros Hx Hy Hw. unfold _st7735_drawFastHLine. cbv zeta.
  rewrite (to_int16_id x), (to_int16_id y), (to_int16_id w) by assumption.
  rewrite bind_read_width, bind_read_height.
  destruct ((x >=? _width g) || (y >=? _height g)); [reflexivity|].
  eapply bind_run; [apply setAddrWindow_run|].
  apply while_postdec_i16_count; [apply pushColor_steady|].
  destruct (x + w - 1 >=? _width g); [apply to_int16_range|assumption].
Qed.

Lemma fillRect_run x y w h color g :
  is_int16 x -> is_int16 y -> is_int16 w -> is_int16 h ->
  _st7735_fillRect x y w h color g
  = if (x >=? _width g) || (y >=? _height g)
    then Some (tt, g, [])
    else
      let w' := if x + w - 1 >=? _width g
                then to_int16 (_width g - x) else w in
      let h' := if y + h - 1 >=? _height g
                then to_int16 (_height g - y) else h in
      Some (tt, g,
            addr_window (colstart g) (rowstart g) x y (x + w' - 1) (y + h' - 1)
              ++ pushes (Z.to_nat w' * Z.to_nat h') color).
Proof.
  intros Hx Hy Hw Hh. unfold _st7735_fillRect. cbv zeta.
  rewrite (to_int16_id x), (to_int16_id y), (to_int16_id w), (to_int16_id h)
    by assumption.
  rewrite bind_read_width, bind_read_height.
  destruct ((x >=? _width g) || (y >=? _height g)); [reflexivity|].
  eapply bind_run; [apply setAddrWindow_run|].
  unfold pushes. rewrite <- concat_repeat_mul.
  apply for_down_i16_count.
  - apply for_down_i16_steady; [apply pushColor_steady|].
    destruct (x + w - 1 >=? _width g);
      [pose proof (to_int16_range (_width g - x))|]; unfold is_int16 in *; lia.
  - destruct (y + h - 1 >=? _height g);
      [pose proof (to_int16_range (_height g - y))|]; unfold is_int16 in *; lia.
Qed.

Lemma fillScreen_run color g :
  _st7735_fillScreen color g
  = _st7735_fillRect 0 0 (_width g) (_height g) color g.
Proof.
  unfold _st7735_fillScreen. now rewrite bind_read_width, bind_read_height.
Qed.

End Drawing.

(** ** Rotation *)

Section Rotation.

Context {hdr : ST7735_h}.

(** The [uint8_t rotation = m % 4] of [_st7735_setRotation]. *)
Lemma rotation_mod4 m : to_uint8 (Z.rem (to_uint8 m) 4) = m mod 4.
Proof.
  pose proof (to_uint8_range m) as Hr.
  rewrite Z.rem_mod_nonneg by lia.
  unfold to_uint8 at 2. rewrite Z.mod_mod_divide by (exists 64; reflexivity).
  pose proof (Z.mod_pos_bound m 4 eq_refl). apply to_uint8_id. lia.
Qed.

Lemma rotation_cases m : m mod 4 = 0 \/ m mod 4 = 1 \/ m mod 4 = 2 \/ m mod 4 = 3.
Proof. pose proof (Z.mod_pos_bound m 4 eq_refl). lia. Qed.

Lemma setRotation_run m g :
  _st7735_setRotation m g
  = Some (tt,
          mkGlobals
            (to_uint16 (if odd_rotation (m mod 4)
                        then ST7735_TFTHEIGHT else ST7735_TFTWIDTH))
            (to_uint16 (if odd_rotation (m mod 4)
                        then ST7735_TFTWIDTH else ST7735_TFTHEIGHT))
            (colstart g) (rowstart g),
          [send_cmd (to_uint8 ST7735_MADCTL);
           send_data (madctl_of_rotation (m mod 4))]).
Proof.
  unfold _st7735_setRotation. cbv zeta. rewrite rotation_mod4.
  destruct (rotation_cases m) as [E|[E|[E|E]]]; rewrite E; reflexivity.
Qed.

End Rotation.

(** ** Arguments outside [int16_t] *)

Lemma to_int16_idem z : to_int16 (to_int16 z) = to_int16 z.
Proof. apply to_int16_id, to_int16_range. Qed.

Section Conversions.

Context {hdr : ST7735_h}.

Lemma drawPixel_conv x y color g :
  _st7735_drawPixel x y color g
  = _st7735_drawPixel (to_int16 x) (to_int16 y) color g.
Proof. unfold _st7735_drawPixel. now rewrite !to_int16_idem. Qed.

Lemma drawFastVLine_conv x y h color g :
  _st7735_drawFastVLine x y h color g
  = _st7735_drawFastVLine (to_int16 x) (to_int16 y) (to_int16 h) color g.
Proof. unfold _st7735_drawFastVLine. now rewrite !to_int16_idem. Qed.

Lemma drawFastHLine_conv x y w color g :
  _st7735_drawFastHLine x y w color g
  = _st7735_drawFastHLine (to_int16 x) (to_int16 y) (to_int16 w) color g.
Proof. unfold _st7735_drawFastHLine. now rewrite !to_int16_idem. Qed.

Lemma fillRect_conv x y w h color g :
  _st7735_fillRect x y w h color g
  = _st7735_fillRect (to_int16 x) (to_int16 y) (to_int16 w) (to_int16 h)
      color g.
Proof. unfold _st7735_fillRect. now rewrite !to_int16_idem. Qed.

(** ** Operations that leave the offsets alone *)

Lemma keeps_offsets_same {A} (m : M A) :
  (forall g, exists a t, m g = Some (a, g, t)) -> keeps_offsets m.
Proof. intros Hm g. destruct (Hm g) as (a & t & E). eauto 6. Qed.

Lemma keeps_offsets_bind {A B} (m : M A) (f : A -> M B) :
  keeps_offsets m -> (forall a, keeps_offsets (f a)) ->
  keeps_offsets (bind m f).
Proof.
  intros Hm Hf g.
  destruct (Hm g) as (a & g1 & t1 & E1 & C1 & R1).
  destruct (Hf a g1) as (b & g2 & t2 & E2 & C2 & R2).
  exists b, g2, (t1 ++ t2). split; [now apply bind_run with a g1|].
  split; congruence.
Qed.

Lemma keeps_offsets_ret {A} (a : A) : keeps_offsets (ret a).
Proof. apply keeps_offsets_same. intros g. now exists a, []. Qed.

Lemma keeps_offsets_setRotation m : keeps_offsets (_st7735_setRotation m).
Proof.
  intros g. rewrite setRotation_run. do 3 eexists. split; [reflexivity|].
  split; reflexivity.
Qed.

Lemma keeps_offsets_setAddrWindow x0 y0 x1 y1 :
  keeps_offsets (_st7735_setAddrWindow x0 y0 x1 y1).
Proof.
  apply keeps_offsets_same. intros g. rewrite setAddrWindow_run. eauto.
Qed.

Lemma keeps_offsets_pushColor color : keeps_offsets (_st7735_pushColor color).
Proof. apply keeps_offsets_same. intros g. rewrite pushColor_run. eauto. Qed.

Lemma keeps_offsets_drawPixel x y color :
  keeps_offsets (_st7735_drawPixel x y color).
Proof.
  apply keeps_offsets_same. intros g.
  rewrite drawPixel_conv, drawPixel_run by apply to_int16_range.
  destruct (_ || _); eauto.
Qed.

Lemma keeps_offsets_drawFastVLine x y h color :
  keeps_offsets (_st7735_drawFastVLine x y h color).
Proof.
  apply keeps_offsets_same. intros g.
  rewrite drawFastVLine_conv, drawFastVLine_run by apply to_int16_range.
  destruct (_ || _); eauto.
Qed.

Lemma keeps_offsets_drawFastHLine x y w color :
  keeps_offsets (_st7735_drawFastHLine x y w color).
Proof.
  apply keeps_offsets_same. intros g.
  rewrite drawFastHLine_conv, drawFastHLine_run by apply to_int16_range.
  destruct (_ || _); eauto.
Qed.

Lemma fillRect_returns x y w h color g :
  exists a t, _st7735_fillRect x y w h color g = Some (a, g, t).
Proof.
  rewrite fillRect_conv, fillRect_run by apply to_int16_range.
  destruct (_ || _); eauto.
Qed.

Lemma keeps_offsets_fillRect x y w h color :
  keeps_offsets (_st7735_fillRect x y w h color).
Proof. apply keeps_offsets_same. intros g. apply fillRect_returns. Qed.

Lemma keeps_offsets_fillScreen color :
  keeps_offsets (_st7735_fillScreen color).
Proof.
  apply keeps_offsets_same. intros g. rewrite fillScreen_run.
  apply fillRect_returns.
Qed.

Lemma keeps_offsets_get_width : keeps_offsets _st7735_get_width.
Proof. apply keeps_offsets_same. intros g. do 2 eexists. reflexivity. Qed.

Lemma keeps_offsets_get_height : keeps_offsets _st7735_get_height.
Proof. apply keeps_offsets_same. intros g. do 2 eexists. reflexivity. Qed.

Create HintDb offsets.
#[local] Hint Resolve keeps_offsets_bind keeps_offsets_ret
  keeps_offsets_setRotation keeps_offsets_setAddrWindow
  keeps_offsets_pushColor keeps_offsets_drawPixel
  keeps_offsets_drawFastVLine keeps_offsets_drawFastHLine
  keeps_offsets_fillRect keeps_offsets_fillScreen
  keeps_offsets_get_width keeps_offsets_get_height : offsets.

Lemma keeps_offsets_operation o : keeps_offsets (run_operation o).
Proof. destruct o; cbn [run_operation]; auto with offsets. Qed.

Lemma keeps_offsets_operations os : keeps_offsets (run_operations os).
Proof.
  induction os as [|o os IH]; cbn [run_operations].
  - apply keeps_offsets_ret.
  - apply keeps_offsets_bind; [apply keeps_offsets_operation|auto].
Qed.

End Conversions.

(** * The claims *)

Section Claims.

Context {hdr : ST7735_h}.

Lemma to_uint8_succ_neq a : to_uint8 (a + 1) <> to_uint8 a.
Proof.
  unfold to_uint8. intros E.
  assert (H1 : (a + 1 - a) mod 256 = 0).
  { rewrite Zminus_mod, E, Z.sub_diag. reflexivity. }
  replace (a + 1 - a) with 1 in H1 by lia. discriminate H1.
Qed.

(** C1 (the code departs from the claim).  For an in-bounds
    [draw_pixel(x, y, color)] the driver sets the address window from
    [(x, y)] to [(x + 1, y + 1)] and then pushes one colour (two data
    bytes).  The window is not the 1x1 window that starts and ends at
    [(x, y)]: its end column and end row are one too far. *)
Theorem C1_drawPixel_window_one_too_far g x y color :
  start_in_bounds g x y -> is_int16 x -> is_int16 y ->
  _st7735_drawPixel x y color g
  = Some (tt, g,
          addr_window (colstart g) (rowstart g) x y (x + 1) (y + 1)
            ++ push_events color)
  /\ length (push_events color) = 2%nat
  /\ addr_window (colstart g) (rowstart g) x y (x + 1) (y + 1)
     <> addr_window (colstart g) (rowstart g) x y x y.
Proof.
  intros [Hx Hy] Ix Iy. split; [|split].
  - rewrite drawPixel_run by assumption.
    replace (x <? 0) with false by (symmetry; apply Z.ltb_ge; lia).
    replace (y <? 0) with false by (symmetry; apply Z.ltb_ge; lia).
    rewrite !Z.geb_leb.
    replace (_width g <=? x) with false by (symmetry; apply Z.leb_gt; lia).
    replace (_height g <=? y) with false by (symmetry; apply Z.leb_gt; lia).
    reflexivity.
  - reflexivity.
  - unfold addr_window. intros E. injection E as E1 E2.
    replace (x + 1 + colstart g) with (x + colstart g + 1) in E1 by lia.
    exact (to_uint8_succ_neq _ E1).
Qed.

(** C2 (the code departs from the claim).  Initialising with the black
    tab variant replays [Rcmd1], [Rcmd2red] and [Rcmd3], leaves the
    globals (and so both offsets) as they were, and then sends one more
    memory-access-control command with the data byte [0xC0].  The
    memory-access-control entry of [Rcmd1], its 14th command, carries the
    same byte [0xC0]: the two bytes differ in no bit, and so not in the
    colour-order bit [MADCTL_BGR]. *)
Theorem C2_initR_blacktab_same_madctl g :
  is_uint8 INITR_BLACKTAB -> INITR_BLACKTAB <> INITR_GREENTAB ->
  _st7735_initR INITR_BLACKTAB g
  = Some (tt, g,
          delay 50 :: reset_events
            ++ replay Rcmd1_entries
            ++ replay Rcmd2red_entries
            ++ replay Rcmd3_entries
            ++ [send_cmd (to_uint8 ST7735_MADCTL); send_data 0xC0])
  /\ nth_error Rcmd1_entries 13 = Some (mkEntry ST7735_MADCTL [0xC0] None)
  /\ Z.lxor 0xC0 0xC0 = 0
  /\ Z.lxor 0xC0 0xC0 <> MADCTL_BGR.
Proof.
  intros Hb Hne. split; [|split; [reflexivity|split; [reflexivity|discriminate]]].
  rewrite initR_run. rewrite (to_uint8_id INITR_BLACKTAB) by exact Hb.
  rewrite Z.eqb_refl.
  replace (INITR_BLACKTAB =? INITR_GREENTAB) with false
    by (symmetry; now apply Z.eqb_neq).
  reflexivity.
Qed.

(** C3 (amended).  A [draw_pixel] whose start lies outside the logical
    bounds ([x < 0], [x >= logical_width], [y < 0] or
    [y >= logical_height]) sends nothing to the transport port.
    [draw_fast_hline], [draw_fast_vline] and [fill_rect] send nothing when
    [x >= logical_width] or [y >= logical_height]. *)
Theorem C3_out_of_bounds_start_skipped g x y w h color :
  is_int16 x -> is_int16 y -> is_int16 w -> is_int16 h ->
  (start_out_of_bounds g x y ->
   _st7735_drawPixel x y color g = Some (tt, g, []))
  /\ (x >= _width g \/ y >= _height g ->
      _st7735_drawFastHLine x y w color g = Some (tt, g, [])
      /\ _st7735_drawFastVLine x y h color g = Some (tt, g, [])
      /\ _st7735_fillRect x y w h color g = Some (tt, g, [])).
Proof.
  intros Ix Iy Iw Ih. split.
  - intros Hout. rewrite drawPixel_run by assumption.
    replace ((x <? 0) || (x >=? _width g) || (y <? 0) || (y >=? _height g))
      with true; [reflexivity|].
    symmetry. rewrite !orb_true_iff, !Z.ltb_lt, !Z.geb_leb, !Z.leb_le.
    unfold start_out_of_bounds in Hout. lia.
  - intros Hout.
    assert (E : (x >=? _width g) || (y >=? _height g) = true).
    { rewrite orb_true_iff, !Z.geb_leb, !Z.leb_le. lia. }
    rewrite drawFastHLine_run, drawFastVLine_run, fillRect_run by assumption.
    rewrite E. auto.
Qed.

(** C4.  Replaying a command table in which an entry carries the encoded
    delay byte [v]: the sequencer sends the entries before it, the entry's
    opcode and arguments, sleeps once, and goes on with the entries after
    it; the sleep is 500 ms when [v] is 255 and [v] ms for every other
    value, 0 included. *)
Theorem C4_delay_byte_255_means_500 pre op ar v post g :
  table_ok (pre ++ mkEntry op ar (Some v) :: post) ->
  exists ms,
    commandList (encode_table (pre ++ mkEntry op ar (Some v) :: post)) g
    = Some (tt, g,
            replay pre
              ++ (send_cmd (to_uint8 op)
                    :: map (fun a => send_data (to_uint8 a)) ar
                    ++ [delay ms])
              ++ replay post)
    /\ (v = 255 -> ms = 500)
    /\ (v <> 255 -> ms = v).
Proof.
  intros Hok. exists (sleep_ms v). split; [|split].
  - rewrite commandList_encode by assumption.
    unfold replay. rewrite flat_map_app. reflexivity.
  - intros ->. reflexivity.
  - intros Hv. unfold sleep_ms.
    now replace (v =? 255) with false by (symmetry; now apply Z.eqb_neq).
Qed.

(** C5.  [set_rotation(m)] and [set_rotation(m + 4)] do the same: same
    transport calls, same globals.  The memory-access-control byte sent is
    that of rotation [m mod 4], and the logical width and height are the
    panel's native width and height, swapped exactly when [m mod 4] is 1
    or 3. *)
Theorem C5_setRotation_mod_4 m g :
  _st7735_setRotation (m + 4) g = _st7735_setRotation m g
  /\ _st7735_setRotation m g
     = Some (tt,
             mkGlobals
               (if odd_rotation (m mod 4)
                then _height init_globals else _width init_globals)
               (if odd_rotation (m mod 4)
                then _width init_globals else _height init_globals)
               (colstart g) (rowstart g),
             [send_cmd (to_uint8 ST7735_MADCTL);
              send_data (madctl_of_rotation (m mod 4))]).
Proof.
  split.
  - rewrite !setRotation_run.
    replace ((m + 4) mod 4) with (m mod 4); [reflexivity|].
    replace (m + 4) with (m + 1 * 4) by lia. now rewrite Z.mod_add.
  - rewrite setRotation_run. destruct (odd_rotation (m mod 4)); reflexivity.
Qed.

(** C6.  On a display whose logical width and height are positive and fit
    [int16_t], [fill_screen(color)] makes one address-window setup (the two
    commands column-address-set and row-address-set with their eight data
    bytes, then the memory-write command) and after it exactly
    [logical_width * logical_height] colour pushes of two data bytes
    each. *)
Theorem C6_fillScreen_pushes_width_times_height g color :
  0 < _width g <= 32767 -> 0 < _height g <= 32767 ->
  _st7735_fillScreen color g
  = Some (tt, g,
          [ send_cmd (to_uint8 ST7735_CASET);
            send_data 0; send_data (to_uint8 (0 + colstart g));
            send_data 0; send_data (to_uint8 (_width g - 1 + colstart g));
            send_cmd (to_uint8 ST7735_RASET);
            send_data 0; send_data (to_uint8 (0 + rowstart g));
            send_data 0; send_data (to_uint8 (_height g - 1 + rowstart g));
            send_cmd (to_uint8 ST7735_RAMWR) ]
            ++ pushes (Z.to_nat (_width g * _height g)) color)
  /\ length (push_events color) = 2%nat.
Proof.
  intros HW HH. split; [|reflexivity].
  rewrite fillScreen_run, fillRect_run by (unfold is_int16; lia).
  rewrite !Z.geb_leb.
  replace (_width g <=? 0) with false by (symmetry; apply Z.leb_gt; lia).
  replace (_height g <=? 0) with false by (symmetry; apply Z.leb_gt; lia).
  replace (_width g <=? 0 + _width g - 1) with false
    by (symmetry; apply Z.leb_gt; lia).
  replace (_height g <=? 0 + _height g - 1) with false
    by (symmetry; apply Z.leb_gt; lia).
  cbn [orb]. cbv zeta. unfold addr_window.
  replace (0 + _width g - 1) with (_width g - 1) by lia.
  replace (0 + _height g - 1) with (_height g - 1) by lia.
  rewrite <- Z2Nat.inj_mul by lia. reflexivity.
Qed.

(** C7.  A [draw_fast_hline] or [fill_rect] whose start is in bounds and
    whose horizontal extent overflows ([x + w - 1 >= logical_width]) sets
    an address window whose end column is [logical_width - 1], and pushes
    [logical_width - x] colours for the line, [logical_width - x] times
    the clamped height for the rectangle (the clamped height is
    [logical_height - y] when the vertical extent overflows and [h]
    otherwise; a height that is not positive gives no push). *)
Theorem C7_horizontal_overflow_clamped g x y w h color :
  start_in_bounds g x y ->
  is_int16 x -> is_int16 y -> is_int16 w -> is_int16 h ->
  x + w - 1 >= _width g ->
  _st7735_drawFastHLine x y w color g
  = Some (tt, g,
          addr_window (colstart g) (rowstart g) x y (_width g - 1) y
            ++ pushes (Z.to_nat (_width g - x)) color)
  /\ (let h' := if y + h - 1 >=? _height g then _height g - y else h in
      _st7735_fillRect x y w h color g
      = Some (tt, g,
              addr_window (colstart g) (rowstart g)
                x y (_width g - 1) (y + h' - 1)
                ++ pushes (Z.to_nat (_width g - x) * Z.to_nat h') color)).
Proof.
  unfold start_in_bounds, is_int16.
  intros [Hx Hy] Ix Iy Iw Ih Hov.
  assert (Ec : (x >=? _width g) || (y >=? _height g) = false).
  { rewrite orb_false_iff, !Z.geb_leb, !Z.leb_gt. lia. }
  assert (Eo : (x + w - 1 >=? _width g) = true).
  { rewrite Z.geb_leb, Z.leb_le. lia. }
  assert (Ew : to_int16 (_width g - x) = _width g - x)
    by (apply to_int16_id; lia).
  split.
  - rewrite drawFastHLine_run by assumption.
    rewrite Ec, Eo. cbv zeta. rewrite Ew.
    rewrite to_uint16_id by lia.
    replace (x + (_width g - x) - 1) with (_width g - 1) by lia.
    reflexivity.
  - cbv zeta. rewrite fillRect_run by assumption.
    rewrite Ec, Eo. cbv zeta. rewrite Ew.
    replace (x + (_width g - x) - 1) with (_width g - 1) by lia.
    destruct (y + h - 1 >=? _height g) eqn:Eh; [|reflexivity].
    rewrite Z.geb_leb, Z.leb_le in Eh.
    rewrite (to_int16_id (_height g - y)) by lia. reflexivity.
Qed.

(** C8.  Initialising with the green tab variant sets [colstart] to 2 and
    [rowstart] to 1; a [draw_pixel(0, 0, 0xF800)] after it sends a
    column-address-set whose start value is 2, a row-address-set whose
    start value is 1, the memory-write command, and then the data bytes
    [0xF8] and [0x00], in this order. *)
Theorem C8_greentab_offsets_and_pixel g :
  is_uint8 INITR_GREENTAB -> 0 < _width g -> 0 < _height g ->
  exists g1 t,
    _st7735_initR INITR_GREENTAB g = Some (tt, g1, t)
    /\ colstart g1 = 2 /\ rowstart g1 = 1
    /\ _st7735_drawPixel 0 0 0xF800 g1
       = Some (tt, g1,
               [ send_cmd (to_uint8 ST7735_CASET);
                 send_data 0; send_data 2; send_data 0; send_data 3;
                 send_cmd (to_uint8 ST7735_RASET);
                 send_data 0; send_data 1; send_data 0; send_data 2;
                 send_cmd (to_uint8 ST7735_RAMWR);
                 send_data 0xF8; send_data 0x00 ]).
Proof.
  intros Hg HW HH.
  rewrite initR_run, (to_uint8_id INITR_GREENTAB), Z.eqb_refl by exact Hg.
  do 2 eexists. split; [reflexivity|]. split; [reflexivity|].
  split; [reflexivity|].
  rewrite drawPixel_run by (unfold is_int16; lia).
  cbn [_width _height colstart rowstart].
  rewrite !Z.geb_leb.
  replace (_width g <=? 0) with false by (symmetry; apply Z.leb_gt; lia).
  replace (_height g <=? 0) with false by (symmetry; apply Z.leb_gt; lia).
  reflexivity.
Qed.

(** C9.  After initialisation, for any variant, no sequence of the later
    operations ([set_rotation], [set_address_window], [draw_pixel],
    [draw_fast_hline], [draw_fast_vline], [fill_rect], [fill_screen],
    [push_color], [get_width], [get_height]) changes [colstart] or
    [rowstart]; every such sequence runs to its end. *)
Theorem C9_offsets_fixed_after_init options os g :
  exists g1 t1 g2 t2,
    _st7735_initR options g = Some (tt, g1, t1)
    /\ run_operations os g1 = Some (tt, g2, t2)
    /\ colstart g2 = colstart g1
    /\ rowstart g2 = rowstart g1.
Proof.
  rewrite initR_run.
  destruct (keeps_offsets_operations os
              (if to_uint8 options =? INITR_GREENTAB
               then mkGlobals (_width g) (_height g) 2 1 else g))
    as ([] & g2 & t2 & E & Hc & Hr).
  do 4 eexists. split; [reflexivity|]. split; [exact E|]. now split.
Qed.

(** C10.  For every [m], [set_rotation(m)] sends exactly one command byte,
    the memory-access-control opcode, and after it exactly one data byte:
    the rotation [m % 4] computed by the function lies in 0..3, so the
    [default] branch of its [switch] is never taken. *)
Theorem C10_setRotation_one_command_one_data m g :
  0 <= to_uint8 (Z.rem (to_uint8 m) 4) <= 3
  /\ exists g' b,
       _st7735_setRotation m g
       = Some (tt, g', [send_cmd (to_uint8 ST7735_MADCTL); send_data b]).
Proof.
  split.
  - rewrite rotation_mod4. pose proof (Z.mod_pos_bound m 4 eq_refl). lia.
  - rewrite setRotation_run. eauto.
Qed.

End Claims.

(** * Further properties of the driver *)

(** An event that moves a byte to the controller: a command or a data
    byte, as opposed to a sleep, a reset-line change or a chip select. *)
Definition is_transfer (e : event) : Prop :=
  match e with
  | send_cmd _ | send_data _ => True
  | _ => False
  end.

(** ** Colour push and command sequencer *)

(** X1.  [push_color] sends two data bytes, high byte first, that put
    together give the colour back as a 16-bit value:
    [256 * high + low = (uint16_t) color]; the globals are untouched. *)
Theorem X1_pushColor_bytes_recombine color g :
  exists hi lo,
    _st7735_pushColor color g = Some (tt, g, [send_data hi; send_data lo])
    /\ 0 <= hi <= 255 /\ 0 <= lo <= 255
    /\ 256 * hi + lo = to_uint16 color.
Proof.
  pose proof (to_uint16_range color) as Hc.
  assert (Hhi : Z.shiftr (to_uint16 color) 8 = to_uint16 color / 256)
    by (rewrite Z.shiftr_div_pow2 by lia; reflexivity).
  assert (Hlo : Z.land (to_uint16 color) 0xff = to_uint16 color mod 256)
    by (change 0xff with (Z.ones 8); rewrite Z.land_ones by lia; reflexivity).
  pose proof (Z.mod_pos_bound (to_uint16 color) 256 eq_refl) as Hm.
  assert (Hd : 0 <= to_uint16 color / 256 <= 255).
  { split; [apply Z.div_pos; lia|].
    apply Z.lt_succ_r, Z.div_lt_upper_bound; lia. }
  exists (to_uint16 color / 256), (to_uint16 color mod 256).
  split; [|split; [exact Hd|split; [lia|]]].
  - rewrite pushColor_run. unfold push_events.
    rewrite Hhi, Hlo, !to_uint8_id by lia. reflexivity.
  - pose proof (Z.div_mod (to_uint16 color) 256). lia.
Qed.

Lemma table_ok_app es1 es2 :
  table_ok (es1 ++ es2) -> table_ok es1 /\ table_ok es2.
Proof.
  unfold table_ok. rewrite length_app, Forall_app.
  intros [Hlen [H1 H2]]. repeat split; (assumption || lia).
Qed.

Lemma commandList_encode_rest (es : list CommandEntry) (rest : list Z) g :
  table_ok es ->
  commandList (encode_table es ++ rest) g = Some (tt, g, replay es).
Proof.
  intros [Hlen Hok]. unfold commandList, encode_table.
  eapply eq_trans.
  - eapply bind_run; [reflexivity|]. cbn [fst snd].
    eapply bind_run; [|reflexivity].
    rewrite to_uint8_id by lia.
    now apply commandList_cmds_run.
  - cbn [app]. now rewrite app_nil_r.
Qed.

(** X2.  The sequencer reads the count byte and exactly that many command
    groups: bytes that follow the last group of a well-formed table are
    never read and change nothing. *)
Theorem X2_commandList_ignores_trailing_bytes es rest g :
  table_ok es ->
  commandList (encode_table es ++ rest) g = commandList (encode_table es) g
  /\ commandList (encode_table es ++ rest) g = Some (tt, g, replay es).
Proof.
  intros Hok. rewrite commandList_encode_rest, commandList_encode by assumption.
  now split.
Qed.

(** X3.  Replaying two tables one after the other makes the same
    transport calls, and leaves the same globals, as replaying the one
    table that holds the entries of both. *)
Theorem X3_commandList_tables_compose es1 es2 g :
  table_ok (es1 ++ es2) ->
  (commandList (encode_table es1) ;; commandList (encode_table es2)) g
  = commandList (encode_table (es1 ++ es2)) g.
Proof.
  intros Hok. destruct (table_ok_app _ _ Hok) as [H1 H2].
  rewrite (commandList_encode (es1 ++ es2)) by assumption.
  unfold replay. rewrite flat_map_app.
  eapply bind_run; now apply commandList_encode.
Qed.

Lemma replay_entry_sleeps e :
  entry_ok e ->
  Forall (fun ev => match ev with
                    | delay ms => 0 <= ms <= 500 /\ ms <> 255
                    | send_cmd _ | send_data _ => True
                    | _ => False
                    end) (replay_entry e).
Proof.
  intros [_ Hd]. unfold replay_entry. constructor; [exact I|].
  apply Forall_app. split.
  - apply Forall_forall. intros ev Hin. apply in_map_iff in Hin.
    destruct Hin as (a & <- & _). exact I.
  - destruct (post_delay e) as [v|]; [|constructor].
    constructor; [|constructor]. unfold sleep_ms.
    destruct (v =? 255) eqn:E; [lia|]. apply Z.eqb_neq in E. lia.
Qed.

(** X4.  While it replays a well-formed table the sequencer only sends
    command and data bytes and sleeps: it never touches the reset line or
    the chip select, no sleep is longer than 500 ms, and no sleep is
    255 ms long (the value the encoding gives up for 500 ms). *)
Theorem X4_commandList_sleeps_at_most_500_never_255 es g :
  table_ok es ->
  exists t,
    commandList (encode_table es) g = Some (tt, g, t)
    /\ Forall (fun ev => match ev with
                         | delay ms => 0 <= ms <= 500 /\ ms <> 255
                         | send_cmd _ | send_data _ => True
                         | _ => False
                         end) t.
Proof.
  intros Hok. exists (replay es). split; [now apply commandList_encode|].
  destruct Hok as [_ Hok]. unfold replay.
  induction Hok as [|e es He Hes IH]; cbn [flat_map]; [constructor|].
  apply Forall_app. split; [now apply replay_entry_sleeps|exact IH].
Qed.

(** ** Initialisation *)

Section MoreInit.

Context {hdr : ST7735_h}.

(** X5.  [_st7735_initR] returns for every [options] and never changes the
    logical width and height.  It sets the offsets to (2, 1) for the green
    tab variant and otherwise leaves them as it found them: it does not
    put them back to 0. *)
Theorem X5_initR_globals options g :
  exists g' t,
    _st7735_initR options g = Some (tt, g', t)
    /\ _width g' = _width g /\ _height g' = _height g
    /\ (to_uint8 options = INITR_GREENTAB ->
        colstart g' = 2 /\ rowstart g' = 1)
    /\ (to_uint8 options <> INITR_GREENTAB ->
        colstart g' = colstart g /\ rowstart g' = rowstart g).
Proof.
  rewrite initR_run. do 2 eexists. split; [reflexivity|].
  destruct (to_uint8 options =? INITR_GREENTAB) eqn:E.
  - apply Z.eqb_eq in E. cbn [_width _height colstart rowstart].
    repeat split; congruence.
  - apply Z.eqb_neq in E. repeat split; congruence.
Qed.

(** X6.  Once the driver was initialised for the green tab variant, a
    second initialisation, for whatever variant, leaves the offsets at
    (2, 1): the red and black paths rely on the offsets still having
    their start value 0. *)
Theorem X6_initR_again_keeps_green_offsets options g :
  is_uint8 INITR_GREENTAB ->
  exists g' t,
    (_st7735_initR INITR_GREENTAB ;; _st7735_initR options) g
    = Some (tt, g', t)
    /\ colstart g' = 2 /\ rowstart g' = 1.
Proof.
  intros Hg. unfold bind. rewrite !initR_run.
  rewrite (to_uint8_id INITR_GREENTAB), Z.eqb_refl by exact Hg.
  do 2 eexists. split; [reflexivity|].
  destruct (to_uint8 options =? INITR_GREENTAB); split; reflexivity.
Qed.

(** X7.  An [options] byte that names neither the green nor the black tab
    is treated as the red tab: same transport calls, same globals. *)
Theorem X7_initR_unknown_variant_is_redtab options g :
  to_uint8 options <> INITR_GREENTAB ->
  to_uint8 options <> INITR_BLACKTAB ->
  to_uint8 INITR_REDTAB <> INITR_GREENTAB ->
  to_uint8 INITR_REDTAB <> INITR_BLACKTAB ->
  _st7735_initR options g = _st7735_initR INITR_REDTAB g.
Proof.
  intros H1 H2 H3 H4. rewrite !initR_run.
  apply Z.eqb_neq in H1, H2, H3, H4. now rewrite H1, H2, H3, H4.
Qed.

End MoreInit.

(** ** Rotation and the operations after initialisation *)

Lemma initR_keeps_width_height {hdr : ST7735_h} options g :
  exists g' t,
    _st7735_initR options g = Some (tt, g', t)
    /\ _width g' = _width g /\ _height g' = _height g.
Proof.
  rewrite initR_run. do 2 eexists. split; [reflexivity|].
  destruct (to_uint8 options =? INITR_GREENTAB); split; reflexivity.
Qed.

Section MoreOperations.

Context {hdr : ST7735_h}.

(** The logical width and height are the panel's, as they are or
    swapped. *)
Definition oriented (g : globals) : Prop :=
  (_width g = _width init_globals /\ _height g = _height init_globals)
  \/ (_width g = _height init_globals /\ _height g = _width init_globals).

(** The globals an operation leaves: only [set_rotation] writes any. *)
Definition globals_after (o : operation) (g : globals) : globals :=
  match o with
  | op_set_rotation m =>
      mkGlobals
        (if odd_rotation (m mod 4)
         then _height init_globals else _width init_globals)
        (if odd_rotation (m mod 4)
         then _width init_globals else _height init_globals)
        (colstart g) (rowstart g)
  | _ => g
  end.

(** The commands the operations use. *)
Definition operation_command (b : Z) : Prop :=
  b = to_uint8 ST7735_CASET \/ b = to_uint8 ST7735_RASET
  \/ b = to_uint8 ST7735_RAMWR \/ b = to_uint8 ST7735_MADCTL.

Definition operation_event (e : event) : Prop :=
  match e with
  | send_cmd b => operation_command b
  | send_data _ => True
  | _ => False
  end.

Lemma operation_events_addr_window cs rs x0 y0 x1 y1 :
  Forall operation_event (addr_window cs rs x0 y0 x1 y1).
Proof.
  unfold addr_window, operation_event, operation_command.
  repeat constructor; tauto.
Qed.

Lemma operation_events_pushes n color :
  Forall operation_event (pushes n color).
Proof.
  induction n as [|n IH]; [constructor|].
  unfold pushes in *. cbn [repeat concat]. apply Forall_app. split; [|exact IH].
  repeat constructor.
Qed.

Lemma operation_events_window_pushes cs rs x0 y0 x1 y1 n color :
  Forall operation_event (addr_window cs rs x0 y0 x1 y1 ++ pushes n color).
Proof.
  apply Forall_app. split;
    [apply operation_events_addr_window|apply operation_events_pushes].
Qed.

Lemma fillRect_shape x y w h color g :
  exists t, _st7735_fillRect x y w h color g = Some (tt, g, t)
            /\ Forall operation_event t.
Proof.
  rewrite fillRect_conv, fillRect_run by apply to_int16_range.
  destruct (_ || _); eexists; (split; [reflexivity|]);
    [constructor|apply operation_events_window_pushes].
Qed.

(** What one operation does to the globals and to the transport port. *)
Lemma run_operation_shape o g :
  exists t,
    run_operation o g = Some (tt, globals_after o g, t)
    /\ Forall operation_event t.
Proof.
  destruct o; cbn [run_operation globals_after].
  - rewrite setRotation_run. eexists. split.
    + destruct (odd_rotation (m mod 4)); reflexivity.
    + unfold operation_event, operation_command. repeat constructor; tauto.
  - rewrite setAddrWindow_run. eexists. split; [reflexivity|].
    apply operation_events_addr_window.
  - rewrite drawPixel_conv, drawPixel_run by apply to_int16_range.
    destruct (_ || _); eexists; (split; [reflexivity|]); [constructor|].
    apply Forall_app. split; [apply operation_events_addr_window|].
    repeat constructor.
  - rewrite drawFastHLine_conv, drawFastHLine_run by apply to_int16_range.
    destruct (_ || _); eexists; (split; [reflexivity|]);
      [constructor|apply operation_events_window_pushes].
  - rewrite drawFastVLine_conv, drawFastVLine_run by apply to_int16_range.
    destruct (_ || _); eexists; (split; [reflexivity|]);
      [constructor|apply operation_events_window_pushes].
  - apply fillRect_shape.
  - rewrite fillScreen_run. apply fillRect_shape.
  - rewrite pushColor_run. eexists. split; [reflexivity|]. repeat constructor.
  - eexists. split; [reflexivity|constructor].
  - eexists. split; [reflexivity|constructor].
Qed.

Lemma oriented_after o g : oriented g -> oriented (globals_after o g).
Proof.
  intros Hg. destruct o; cbn [globals_after]; try exact Hg.
  unfold oriented. cbn [_width _height].
  destruct (odd_rotation (m mod 4)); [right|left]; split; reflexivity.
Qed.

(** X8.  Two rotations in a row leave the globals of the second alone:
    the logical width and height after [set_rotation(m2)] do not depend
    on the rotation before it, and the port sees the two
    memory-access-control writes one after the other. *)
Theorem X8_setRotation_last_one_wins m1 m2 g :
  exists g2,
    _st7735_setRotation m2 g
    = Some (tt, g2, [send_cmd (to_uint8 ST7735_MADCTL);
                     send_data (madctl_of_rotation (m2 mod 4))])
    /\ (_st7735_setRotation m1 ;; _st7735_setRotation m2) g
       = Some (tt, g2,
               [send_cmd (to_uint8 ST7735_MADCTL);
                send_data (madctl_of_rotation (m1 mod 4));
                send_cmd (to_uint8 ST7735_MADCTL);
                send_data (madctl_of_rotation (m2 mod 4))]).
Proof.
  eexists. split; [apply setRotation_run|].
  unfold bind. rewrite !setRotation_run. reflexivity.
Qed.

(** X9.  Of the operations that follow initialisation only
    [set_rotation] writes a global: [set_address_window], the drawing
    primitives, [push_color], [get_width] and [get_height] return with
    all four globals as they were, for all arguments. *)
Theorem X9_only_setRotation_writes_globals o g :
  (forall m, o <> op_set_rotation m) ->
  exists t, run_operation o g = Some (tt, g, t).
Proof.
  intros Ho. destruct (run_operation_shape o g) as (t & E & _).
  exists t. rewrite E. destruct o; try reflexivity.
  now destruct (Ho m).
Qed.

(** X10.  From the start state, after initialisation for any variant and
    any sequence of operations, the logical width and height are the
    panel's width and height, as they are or swapped. *)
Theorem X10_width_height_stay_oriented options os :
  exists g' t,
    (_st7735_initR options ;; run_operations os) init_globals
    = Some (tt, g', t)
    /\ oriented g'.
Proof.
  assert (Hops : forall g, oriented g ->
            exists g' t, run_operations os g = Some (tt, g', t)
                         /\ oriented g').
  { induction os as [|o os IH]; intros g Hg.
    - exists g, []. now split.
    - destruct (run_operation_shape o g) as (t1 & E1 & _).
      destruct (IH _ (oriented_after o g Hg)) as (g2 & t2 & E2 & H2).
      exists g2, (t1 ++ t2). split; [|exact H2].
      cbn [run_operations]. now apply bind_run with tt (globals_after o g). }
  destruct (initR_keeps_width_height options init_globals)
    as (g1 & t1 & E1 & Hw & Hh).
  destruct (Hops g1) as (g2 & t2 & E2 & H2).
  { left. now split. }
  exists g2, (t1 ++ t2). split; [|exact H2].
  now apply bind_run with tt g1.
Qed.

(** X11.  The operations that follow initialisation never sleep, never
    touch the reset line or the chip select, and send no command other
    than column-address-set, row-address-set, memory-write and
    memory-access-control. *)
Theorem X11_operations_send_only_four_commands os g :
  exists g' t,
    run_operations os g = Some (tt, g', t)
    /\ Forall operation_event t.
Proof.
  revert g. induction os as [|o os IH]; intros g.
  - exists g, []. split; [reflexivity|constructor].
  - destruct (run_operation_shape o g) as (t1 & E1 & F1).
    destruct (IH (globals_after o g)) as (g2 & t2 & E2 & F2).
    exists g2, (t1 ++ t2). split.
    + cbn [run_operations]. now apply bind_run with tt (globals_after o g).
    + apply Forall_app. now split.
Qed.

(** X12.  [get_width] and [get_height] after [set_rotation(m)] return the
    low byte of the panel's width and height, swapped when [m mod 4] is
    1 or 3; they send nothing of their own. *)
Theorem X12_get_width_height_after_rotation m g :
  exists g',
    (_st7735_setRotation m ;; _st7735_get_width) g
    = Some (to_uint8 (if odd_rotation (m mod 4)
                      then _height init_globals else _width init_globals),
            g',
            [send_cmd (to_uint8 ST7735_MADCTL);
             send_data (madctl_of_rotation (m mod 4))])
    /\ (_st7735_setRotation m ;; _st7735_get_height) g
       = Some (to_uint8 (if odd_rotation (m mod 4)
                         then _width init_globals else _height init_globals),
               g',
               [send_cmd (to_uint8 ST7735_MADCTL);
                send_data (madctl_of_rotation (m mod 4))]).
Proof.
  exists (globals_after (op_set_rotation m) g).
  unfold bind. rewrite !setRotation_run. cbn [globals_after].
  destruct (odd_rotation (m mod 4)); split; reflexivity.
Qed.

End MoreOperations.

(** ** Drawing primitives: extent and fill *)

Section MoreDrawing.

Context {hdr : ST7735_h}.

Lemma geb_false a b : a < b -> (a >=? b) = false.
Proof. intros. rewrite Z.geb_leb. apply Z.leb_gt. lia. Qed.

Lemma geb_true a b : b <= a -> (a >=? b) = true.
Proof. intros. rewrite Z.geb_leb. apply Z.leb_le. lia. Qed.

Lemma start_guard_false g x y :
  x < _width g -> y < _height g ->
  (x >=? _width g) || (y >=? _height g) = false.
Proof. intros. now rewrite !geb_false. Qed.

(** X13.  A [fill_rect] with its start in bounds and a positive width and
    height sets a window that starts at [(x, y)], ends at the requested
    corner or at the last logical column or row, whichever comes first,
    and pushes exactly as many colours as the window has pixels. *)
Theorem X13_fillRect_fills_its_window g x y w h color :
  start_in_bounds g x y ->
  is_int16 x -> is_int16 y -> is_int16 w -> is_int16 h ->
  0 < w -> 0 < h ->
  let x1 := Z.min (x + w - 1) (_width g - 1) in
  let y1 := Z.min (y + h - 1) (_height g - 1) in
  _st7735_fillRect x y w h color g
  = Some (tt, g,
          addr_window (colstart g) (rowstart g) x y x1 y1
            ++ pushes (Z.to_nat ((x1 - x + 1) * (y1 - y + 1))) color).
Proof.
  unfold start_in_bounds, is_int16.
  intros [Hx Hy] Ix Iy Iw Ih Hw Hh. cbv zeta.
  rewrite fillRect_run by assumption.
  rewrite start_guard_false by lia. cbv zeta.
  destruct (Z_le_gt_dec (_width g) (x + w - 1)) as [Ow|Ow];
    destruct (Z_le_gt_dec (_height g) (y + h - 1)) as [Oh|Oh].
  - rewrite !geb_true by lia.
    rewrite (to_int16_id (_width g - x)), (to_int16_id (_height g - y)) by lia.
    rewrite !Z.min_r by lia. rewrite <- Z2Nat.inj_mul by lia.
    do 4 f_equal; lia.
  - rewrite (geb_true (x + w - 1)), (geb_false (y + h - 1)) by lia.
    rewrite (to_int16_id (_width g - x)) by lia.
    rewrite (Z.min_r (x + w - 1)), (Z.min_l (y + h - 1)) by lia.
    rewrite <- Z2Nat.inj_mul by lia. do 4 f_equal; lia.
  - rewrite (geb_false (x + w - 1)), (geb_true (y + h - 1)) by lia.
    rewrite (to_int16_id (_height g - y)) by lia.
    rewrite (Z.min_l (x + w - 1)), (Z.min_r (y + h - 1)) by lia.
    rewrite <- Z2Nat.inj_mul by lia. do 4 f_equal; lia.
  - rewrite !geb_false by lia. rewrite !Z.min_l by lia.
    rewrite <- Z2Nat.inj_mul by lia. do 4 f_equal; lia.
Qed.

(** X14.  A [draw_fast_vline] (or [draw_fast_hline]) with its start in
    bounds and a positive length sets a window one pixel wide (high) from
    the start to the requested end or to the last logical row (column),
    whichever comes first, and pushes one colour per pixel of it. *)
Theorem X14_lines_fill_their_window g x y len color :
  start_in_bounds g x y ->
  is_int16 x -> is_int16 y -> is_int16 len -> 0 < len ->
  (let y1 := Z.min (y + len - 1) (_height g - 1) in
   _st7735_drawFastVLine x y len color g
   = Some (tt, g,
           addr_window (colstart g) (rowstart g) x y x y1
             ++ pushes (Z.to_nat (y1 - y + 1)) color))
  /\ (let x1 := Z.min (x + len - 1) (_width g - 1) in
      _st7735_drawFastHLine x y len color g
      = Some (tt, g,
              addr_window (colstart g) (rowstart g) x y x1 y
                ++ pushes (Z.to_nat (x1 - x + 1)) color)).
Proof.
  unfold start_in_bounds, is_int16.
  intros [Hx Hy] Ix Iy Il Hl. cbv zeta. split.
  - rewrite drawFastVLine_run by assumption.
    rewrite start_guard_false by lia. cbv zeta.
    destruct (Z_le_gt_dec (_height g) (y + len - 1)) as [O|O].
    + rewrite geb_true by lia.
      rewrite (to_int16_id (_height g - y)), to_uint16_id by lia.
      rewrite Z.min_r by lia. do 4 f_equal; lia.
    + rewrite geb_false by lia. rewrite to_uint16_id by lia.
      rewrite Z.min_l by lia. do 4 f_equal; lia.
  - rewrite drawFastHLine_run by assumption.
    rewrite start_guard_false by lia. cbv zeta.
    destruct (Z_le_gt_dec (_width g) (x + len - 1)) as [O|O].
    + rewrite geb_true by lia.
      rewrite (to_int16_id (_width g - x)), to_uint16_id by lia.
      rewrite Z.min_r by lia. do 4 f_equal; lia.
    + rewrite geb_false by lia. rewrite to_uint16_id by lia.
      rewrite Z.min_l by lia. do 4 f_equal; lia.
Qed.

(** X15.  A line of length 0 that passes the start guard sets a window
    that ends one before its start and pushes nothing.  A line of
    negative length [len] sets such a window too, ending at
    [start + len - 1], and then pushes [65536 + len] colours: the
    [while (len--)] loop counts the 16-bit value down through the
    wrap-around. *)
Theorem X15_lines_of_non_positive_length g x y len color :
  is_int16 x -> is_int16 y -> is_int16 len ->
  x < _width g -> y < _height g -> len <= 0 ->
  let n := if len =? 0 then 0 else 65536 + len in
  _st7735_drawFastVLine x y len color g
  = Some (tt, g,
          addr_window (colstart g) (rowstart g) x y x (y + len - 1)
            ++ pushes (Z.to_nat n) color)
  /\ _st7735_drawFastHLine x y len color g
     = Some (tt, g,
             addr_window (colstart g) (rowstart g) x y (x + len - 1) y
               ++ pushes (Z.to_nat n) color).
Proof.
  unfold is_int16. intros Ix Iy Il Hx Hy Hl. cbv zeta.
  assert (En : to_uint16 len = if len =? 0 then 0 else 65536 + len).
  { destruct (len =? 0) eqn:E.
    - apply Z.eqb_eq in E. now subst.
    - apply Z.eqb_neq in E. rewrite to_uint16_neg by lia. lia. }
  rewrite drawFastVLine_run, drawFastHLine_run by assumption.
  rewrite start_guard_false by lia. cbv zeta.
  rewrite !geb_false by lia. rewrite En. now split.
Qed.

(** X16.  A [fill_rect] that passes the start guard with a width or a
    height that is not positive still sets an address window, and pushes
    no colour. *)
Theorem X16_fillRect_of_non_positive_size g x y w h color :
  is_int16 x -> is_int16 y -> is_int16 w -> is_int16 h ->
  0 <= x < _width g -> 0 <= y < _height g -> w <= 0 \/ h <= 0 ->
  exists x1 y1,
    _st7735_fillRect x y w h color g
    = Some (tt, g, addr_window (colstart g) (rowstart g) x y x1 y1).
Proof.
  unfold is_int16. intros Ix Iy Iw Ih Hx Hy Hwh.
  rewrite fillRect_run by assumption.
  rewrite start_guard_false by lia. cbv zeta.
  do 2 eexists.
  match goal with
  | |- Some (_, _, _ ++ pushes ?n _) = _ =>
      assert (E : n = 0%nat); [|rewrite E]
  end.
  - destruct (Z_le_gt_dec (_width g) (x + w - 1)) as [Ow|Ow];
      destruct (Z_le_gt_dec (_height g) (y + h - 1)) as [Oh|Oh].
    + lia.
    + rewrite (geb_true (x + w - 1)), (geb_false (y + h - 1)) by lia.
      rewrite (to_int16_id (_width g - x)) by lia. lia.
    + rewrite (geb_false (x + w - 1)), (geb_true (y + h - 1)) by lia.
      rewrite (to_int16_id (_height g - y)) by lia. lia.
    + rewrite !geb_false by lia. lia.
  - unfold pushes. cbn [repeat concat]. rewrite app_nil_r. reflexivity.
Qed.

(** X17.  A rectangle one row high is the horizontal line, and a
    rectangle one column wide is the vertical line, whenever the length
    is not negative: same window, same pushes, for every start. *)
Theorem X17_fillRect_one_row_is_a_line g x y len color :
  is_int16 x -> is_int16 y -> is_int16 len -> 0 <= len ->
  _st7735_fillRect x y len 1 color g = _st7735_drawFastHLine x y len color g
  /\ _st7735_fillRect x y 1 len color g
     = _st7735_drawFastVLine x y len color g.
Proof.
  unfold is_int16. intros Ix Iy Il Hl.
  rewrite !fillRect_run, drawFastHLine_run, drawFastVLine_run
    by (unfold is_int16; lia).
  destruct (Z_le_gt_dec (_width g) x) as [Gx|Gx].
  { rewrite (geb_true x) by lia. now split. }
  destruct (Z_le_gt_dec (_height g) y) as [Gy|Gy].
  { rewrite (geb_true y), orb_true_r by lia. now split. }
  rewrite start_guard_false by lia. cbv zeta.
  rewrite (geb_false (y + 1 - 1)), (geb_false (x + 1 - 1)) by lia.
  replace (y + 1 - 1) with y by lia. replace (x + 1 - 1) with x by lia.
  split.
  - destruct (Z_le_gt_dec (_width g) (x + len - 1)) as [O|O].
    + rewrite geb_true by lia.
      rewrite (to_int16_id (_width g - x)), to_uint16_id by lia.
      now rewrite Nat.mul_1_r.
    + rewrite geb_false by lia. rewrite to_uint16_id by lia.
      now rewrite Nat.mul_1_r.
  - destruct (Z_le_gt_dec (_height g) (y + len - 1)) as [O|O].
    + rewrite geb_true by lia.
      rewrite (to_int16_id (_height g - y)), to_uint16_id by lia.
      now rewrite Nat.mul_1_l.
    + rewrite geb_false by lia. rewrite to_uint16_id by lia.
      now rewrite Nat.mul_1_l.
Qed.

(** X18.  Whatever the rotation, a [fill_screen] after [set_rotation]
    pushes as many colours as the panel has pixels, after the
    memory-access-control write and one window setup of eleven transport
    calls that spans the rotated width and height. *)
Theorem X18_fillScreen_after_rotation m color g :
  0 < _width init_globals <= 32767 -> 0 < _height init_globals <= 32767 ->
  exists g',
    (_st7735_setRotation m ;; _st7735_fillScreen color) g
    = Some (tt, g',
            [send_cmd (to_uint8 ST7735_MADCTL);
             send_data (madctl_of_rotation (m mod 4))]
              ++ addr_window (colstart g) (rowstart g) 0 0
                   (_width g' - 1) (_height g' - 1)
              ++ pushes (Z.to_nat (_width init_globals
                                   * _height init_globals)) color)
    /\ g' = globals_after (op_set_rotation m) g.
Proof.
  intros HW HH. exists (globals_after (op_set_rotation m) g).
  split; [|reflexivity].
  assert (Hfill : forall g0,
    0 < _width g0 <= 32767 -> 0 < _height g0 <= 32767 ->
    _st7735_fillScreen color g0
    = Some (tt, g0,
            addr_window (colstart g0) (rowstart g0) 0 0
              (_width g0 - 1) (_height g0 - 1)
              ++ pushes (Z.to_nat (_width g0 * _height g0)) color)).
  { intros g0 H1 H2.
    rewrite fillScreen_run, fillRect_run by (unfold is_int16; lia).
    rewrite start_guard_false by lia. cbv zeta.
    rewrite !geb_false by lia.
    rewrite <- Z2Nat.inj_mul by lia. do 4 f_equal; lia. }
  assert (Hrot : _st7735_setRotation m g
                 = Some (tt, globals_after (op_set_rotation m) g,
                         [send_cmd (to_uint8 ST7735_MADCTL);
                          send_data (madctl_of_rotation (m mod 4))])).
  { rewrite setRotation_run. cbn [globals_after].
    destruct (odd_rotation (m mod 4)); reflexivity. }
  eapply bind_run; [exact Hrot|].
  - rewrite Hfill.
    + cbn [globals_after _width _height colstart rowstart].
      destruct (odd_rotation (m mod 4)); [|reflexivity].
      now rewrite (Z.mul_comm (_height init_globals)).
    + cbn [globals_after _width]. destruct (odd_rotation (m mod 4)); lia.
    + cbn [globals_after _height]. destruct (odd_rotation (m mod 4)); lia.
Qed.

End MoreDrawing.

(** ** Address window: wrap-around, and the windows of the tables *)

Section MoreWindow.

Context {hdr : ST7735_h}.

Lemma to_uint8_shift a b k : to_uint8 (a + 256 * k + b) = to_uint8 (a + b).
Proof.
  unfold to_uint8. replace (a + 256 * k + b) with (a + b + k * 256) by lia.
  apply Z.mod_add. lia.
Qed.

(** X19.  [set_address_window] takes its coordinates modulo 256 and sends
    each coordinate plus offset modulo 256 under a zero high byte:
    coordinates that differ by multiples of 256 set the same window. *)
Theorem X19_setAddrWindow_wraps_at_256 x0 y0 x1 y1 a b c d g :
  _st7735_setAddrWindow (x0 + 256 * a) (y0 + 256 * b)
                        (x1 + 256 * c) (y1 + 256 * d) g
  = _st7735_setAddrWindow x0 y0 x1 y1 g
  /\ _st7735_setAddrWindow x0 y0 x1 y1 g
     = Some (tt, g,
             [ send_cmd (to_uint8 ST7735_CASET);
               send_data 0; send_data ((x0 + colstart g) mod 256);
               send_data 0; send_data ((x1 + colstart g) mod 256);
               send_cmd (to_uint8 ST7735_RASET);
               send_data 0; send_data ((y0 + rowstart g) mod 256);
               send_data 0; send_data ((y1 + rowstart g) mod 256);
               send_cmd (to_uint8 ST7735_RAMWR) ]).
Proof.
  split.
  - rewrite !setAddrWindow_run. unfold addr_window.
    now rewrite !to_uint8_shift.
  - apply setAddrWindow_run.
Qed.

(** X20.  Started with both offsets 0, initialisation leaves the
    controller with the column and row range that
    [set_address_window(0, 0, 127, 159)] sets under the offsets it leaves:
    the second command table of each variant and the offsets assigned
    beside it agree. *)
Theorem X20_initR_window_agrees_with_offsets options g :
  colstart g = 0 -> rowstart g = 0 ->
  exists g1 win,
    _st7735_initR options g
    = Some (tt, g1,
            delay 50 :: reset_events
              ++ replay Rcmd1_entries
              ++ win
              ++ replay Rcmd3_entries
              ++ (if to_uint8 options =? INITR_BLACKTAB
                  then [send_cmd (to_uint8 ST7735_MADCTL); send_data 0xC0]
                  else []))
    /\ _st7735_setAddrWindow 0 0 127 159 g1
       = Some (tt, g1, win ++ [send_cmd (to_uint8 ST7735_RAMWR)]).
Proof.
  intros Hc Hr. rewrite initR_run.
  destruct (to_uint8 options =? INITR_GREENTAB).
  - do 2 eexists. split; [reflexivity|]. rewrite setAddrWindow_run.
    reflexivity.
  - do 2 eexists. split; [reflexivity|]. rewrite setAddrWindow_run, Hc, Hr.
    reflexivity.
Qed.

End MoreWindow.

(** * The claims on the Adafruit 1.8 inch panel

    The theorems above hold for every ST7735.h; below they are applied to
    the 128 x 160 panel with Adafruit's values, in the state the driver
    starts in. *)

#[local] Existing Instance adafruit_h.

Ltac on_panel :=
  unfold start_in_bounds, start_out_of_bounds, is_int16, is_uint8;
  change (@init_globals adafruit_h) with (mkGlobals 128 160 0 0);
  cbn [_width _height colstart rowstart adafruit_h
       INITR_GREENTAB INITR_BLACKTAB];
  lia.

(** The pixel at the origin: the window ends at column 1, row 1. *)
Example drawPixel_origin_bytes :
  _st7735_drawPixel 0 0 0xF800 init_globals
  = Some (tt, init_globals,
          [ send_cmd 0x2A;
            send_data 0; send_data 0; send_data 0; send_data 1;
            send_cmd 0x2B;
            send_data 0; send_data 0; send_data 0; send_data 1;
            send_cmd 0x2C;
            send_data 0xF8; send_data 0x00 ]).
Proof. vm_compute. reflexivity. Qed.

(** The last pixel of the panel: the window ends at column 128, row 160,
    outside the 128 x 160 panel. *)
Example drawPixel_corner_bytes :
  _st7735_drawPixel 127 159 0xF800 init_globals
  = Some (tt, init_globals,
          [ send_cmd 0x2A;
            send_data 0; send_data 127; send_data 0; send_data 128;
            send_cmd 0x2B;
            send_data 0; send_data 159; send_data 0; send_data 160;
            send_cmd 0x2C;
            send_data 0xF8; send_data 0x00 ]).
Proof. vm_compute. reflexivity. Qed.

(** The same pixel drawn as a line of length 1 and as a 1 x 1 rectangle:
    the window ends where it starts. *)
Example drawFastHLine_one_pixel_bytes :
  _st7735_drawFastHLine 0 0 1 0xF800 init_globals
  = Some (tt, init_globals,
          [ send_cmd 0x2A;
            send_data 0; send_data 0; send_data 0; send_data 0;
            send_cmd 0x2B;
            send_data 0; send_data 0; send_data 0; send_data 0;
            send_cmd 0x2C;
            send_data 0xF8; send_data 0x00 ])
  /\ _st7735_fillRect 0 0 1 1 0xF800 init_globals
     = _st7735_drawFastHLine 0 0 1 0xF800 init_globals
  /\ _st7735_drawFastVLine 0 0 1 0xF800 init_globals
     = _st7735_drawFastHLine 0 0 1 0xF800 init_globals.
Proof. repeat split; vm_compute; reflexivity. Qed.

(** Black tab initialisation, every transport call: the memory-access-control
    command [0x36] is sent twice, with the data byte [0xC0] both times. *)
Example initR_blacktab_bytes :
  _st7735_initR INITR_BLACKTAB init_globals
  = Some (tt, init_globals,
          [ delay 50; cs0; rst1; delay 500; rst0; delay 500; rst1; delay 500;
            send_cmd 0x01; delay 150;
            send_cmd 0x11; delay 500;
            send_cmd 0xB1; send_data 0x01; send_data 0x2C; send_data 0x2D;
            send_cmd 0xB2; send_data 0x01; send_data 0x2C; send_data 0x2D;
            send_cmd 0xB3; send_data 0x01; send_data 0x2C; send_data 0x2D;
                           send_data 0x01; send_data 0x2C; send_data 0x2D;
            send_cmd 0xB4; send_data 0x07;
            send_cmd 0xC0; send_data 0xA2; send_data 0x02; send_data 0x84;
            send_cmd 0xC1; send_data 0xC5;
            send_cmd 0xC2; send_data 0x0A; send_data 0x00;
            send_cmd 0xC3; send_data 0x8A; send_data 0x2A;
            send_cmd 0xC4; send_data 0x8A; send_data 0xEE;
            send_cmd 0xC5; send_data 0x0E;
            send_cmd 0x20;
            send_cmd 0x36; send_data 0xC0;
            send_cmd 0x3A; send_data 0x05; delay 10;
            send_cmd 0x2A; send_data 0x00; send_data 0x00;
                           send_data 0x00; send_data 0x7F;
            send_cmd 0x2B; send_data 0x00; send_data 0x00;
                           send_data 0x00; send_data 0x9F;
            send_cmd 0xE0;
            send_data 0x02; send_data 0x1c; send_data 0x07; send_data 0x12;
            send_data 0x37; send_data 0x32; send_data 0x29; send_data 0x2d;
            send_data 0x29; send_data 0x25; send_data 0x2B; send_data 0x39;
            send_data 0x00; send_data 0x01; send_data 0x03; send_data 0x10;
            send_cmd 0xE1;
            send_data 0x03; send_data 0x1d; send_data 0x07; send_data 0x06;
            send_data 0x2E; send_data 0x2C; send_data 0x29; send_data 0x2D;
            send_data 0x2E; send_data 0x2E; send_data 0x37; send_data 0x3F;
            send_data 0x00; send_data 0x00; send_data 0x02; send_data 0x10;
            send_cmd 0x13; delay 10;
            send_cmd 0x29; delay 100;
            send_cmd 0x36; send_data 0xC0 ]).
Proof. vm_compute. reflexivity. Qed.

(** Negative starts pass the guards of the line and rectangle
    primitives; [draw_pixel] rejects them. *)
Example negative_start_bytes :
  _st7735_drawPixel (-1) 0 0xF800 init_globals = Some (tt, init_globals, [])
  /\ trace_of (_st7735_drawFastVLine 0 (-1) 1 0xF800 init_globals)
     = [ send_cmd 0x2A;
         send_data 0; send_data 0; send_data 0; send_data 0;
         send_cmd 0x2B;
         send_data 0; send_data 255; send_data 0; send_data 255;
         send_cmd 0x2C;
         send_data 0xF8; send_data 0x00 ]
  /\ trace_of (_st7735_fillRect (-1) (-1) 1 1 0xF800 init_globals)
     = [ send_cmd 0x2A;
         send_data 0; send_data 255; send_data 0; send_data 255;
         send_cmd 0x2B;
         send_data 0; send_data 255; send_data 0; send_data 255;
         send_cmd 0x2C;
         send_data 0xF8; send_data 0x00 ].
Proof. repeat split; vm_compute; reflexivity. Qed.

(** Rotations 1 and 5 on the panel. *)
Example setRotation_1_and_5 :
  _st7735_setRotation 1 init_globals
  = Some (tt, mkGlobals 160 128 0 0, [send_cmd 0x36; send_data 0xA0])
  /\ _st7735_setRotation 5 init_globals = _st7735_setRotation 1 init_globals
  /\ _st7735_setRotation 255 init_globals
     = Some (tt, mkGlobals 160 128 0 0, [send_cmd 0x36; send_data 0x60]).
Proof. repeat split; vm_compute; reflexivity. Qed.

Lemma C1_drawPixel_window_one_too_far_witness :
  _st7735_drawPixel 0 0 0xF800 init_globals
  = Some (tt, init_globals,
          addr_window 0 0 0 0 (0 + 1) (0 + 1) ++ push_events 0xF800)
  /\ length (push_events 0xF800) = 2%nat
  /\ addr_window 0 0 0 0 (0 + 1) (0 + 1) <> addr_window 0 0 0 0 0 0.
Proof.
  apply (C1_drawPixel_window_one_too_far init_globals 0 0 0xF800).
  - on_panel.
  - on_panel.
  - on_panel.
Defined.

Lemma C2_initR_blacktab_same_madctl_witness :
  _st7735_initR INITR_BLACKTAB init_globals
  = Some (tt, init_globals,
          delay 50 :: reset_events
            ++ replay Rcmd1_entries
            ++ replay Rcmd2red_entries
            ++ replay Rcmd3_entries
            ++ [send_cmd (to_uint8 ST7735_MADCTL); send_data 0xC0])
  /\ nth_error Rcmd1_entries 13 = Some (mkEntry ST7735_MADCTL [0xC0] None)
  /\ Z.lxor 0xC0 0xC0 = 0
  /\ Z.lxor 0xC0 0xC0 <> MADCTL_BGR.
Proof.
  apply (C2_initR_blacktab_same_madctl init_globals).
  - on_panel.
  - on_panel.
Defined.

(** C3, as first stated, fails: a horizontal line that starts at
    [x = -1] is out of bounds on the left and still sets a window and
    pushes a colour. *)
Lemma C3_counterexample_hline_negative_start :
  start_out_of_bounds init_globals (-1) 0
  /\ _st7735_drawFastHLine (-1) 0 1 0xF800 init_globals
     = Some (tt, init_globals,
             [ send_cmd 0x2A;
               send_data 0; send_data 255; send_data 0; send_data 255;
               send_cmd 0x2B;
               send_data 0; send_data 0; send_data 0; send_data 0;
               send_cmd 0x2C;
               send_data 0xF8; send_data 0x00 ])
  /\ trace_of (_st7735_drawFastHLine (-1) 0 1 0xF800 init_globals) <> [].
Proof.
  split; [left; lia|]. split; [vm_compute; reflexivity|].
  vm_compute. discriminate.
Qed.

Lemma C3_out_of_bounds_start_skipped_witness :
  _st7735_drawPixel 128 0 0xF800 init_globals = Some (tt, init_globals, [])
  /\ _st7735_drawFastHLine 128 0 5 0xF800 init_globals
     = Some (tt, init_globals, [])
  /\ _st7735_drawFastVLine 128 0 7 0xF800 init_globals
     = Some (tt, init_globals, [])
  /\ _st7735_fillRect 128 0 5 7 0xF800 init_globals
     = Some (tt, init_globals, []).
Proof.
  destruct (C3_out_of_bounds_start_skipped init_globals 128 0 5 7 0xF800)
    as [Hp Hl]; try on_panel.
  split.
  - apply Hp. on_panel.
  - apply Hl. on_panel.
Defined.

Lemma C4_delay_byte_255_means_500_witness :
  exists ms,
    commandList
      (encode_table ([] ++ mkEntry 0x11 [] (Some 255)
                       :: [mkEntry 0x13 [1; 2] (Some 0)])) init_globals
    = Some (tt, init_globals,
            replay []
              ++ (send_cmd (to_uint8 0x11)
                    :: map (fun a => send_data (to_uint8 a)) []
                    ++ [delay ms])
              ++ replay [mkEntry 0x13 [1; 2] (Some 0)])
    /\ (255 = 255 -> ms = 500)
    /\ (255 <> 255 -> ms = 255).
Proof.
  apply (C4_delay_byte_255_means_500
           [] 0x11 [] 255 [mkEntry 0x13 [1; 2] (Some 0)] init_globals).
  split; [simpl; lia|]. repeat constructor; simpl; lia.
Defined.

Lemma C6_fillScreen_pushes_width_times_height_witness :
  (0 < _width init_globals <= 32767 /\ 0 < _height init_globals <= 32767)
  /\ _st7735_fillScreen 0xF800 init_globals
     = Some (tt, init_globals,
             [ send_cmd (to_uint8 ST7735_CASET);
               send_data 0; send_data (to_uint8 (0 + colstart init_globals));
               send_data 0;
               send_data (to_uint8 (_width init_globals - 1
                                    + colstart init_globals));
               send_cmd (to_uint8 ST7735_RASET);
               send_data 0; send_data (to_uint8 (0 + rowstart init_globals));
               send_data 0;
               send_data (to_uint8 (_height init_globals - 1
                                    + rowstart init_globals));
               send_cmd (to_uint8 ST7735_RAMWR) ]
               ++ pushes (Z.to_nat (_width init_globals
                                    * _height init_globals)) 0xF800)
  /\ length (push_events 0xF800) = 2%nat.
Proof.
  split; [split; on_panel|].
  apply (C6_fillScreen_pushes_width_times_height init_globals 0xF800);
    on_panel.
Defined.

Lemma C7_horizontal_overflow_clamped_witness :
  _st7735_drawFastHLine 126 158 5 0xF800 init_globals
  = Some (tt, init_globals,
          addr_window 0 0 126 158 (128 - 1) 158
            ++ pushes (Z.to_nat (128 - 126)) 0xF800)
  /\ _st7735_fillRect 126 158 5 7 0xF800 init_globals
     = Some (tt, init_globals,
             addr_window 0 0 126 158 (128 - 1) (158 + (160 - 158) - 1)
               ++ pushes (Z.to_nat (128 - 126) * Z.to_nat (160 - 158)) 0xF800).
Proof.
  refine (C7_horizontal_overflow_clamped
            init_globals 126 158 5 7 0xF800 _ _ _ _ _ _); on_panel.
Defined.

Lemma C8_greentab_offsets_and_pixel_witness :
  exists g1 t,
    _st7735_initR INITR_GREENTAB init_globals = Some (tt, g1, t)
    /\ colstart g1 = 2 /\ rowstart g1 = 1
    /\ _st7735_drawPixel 0 0 0xF800 g1
       = Some (tt, g1,
               [ send_cmd (to_uint8 ST7735_CASET);
                 send_data 0; send_data 2; send_data 0; send_data 3;
                 send_cmd (to_uint8 ST7735_RASET);
                 send_data 0; send_data 1; send_data 0; send_data 2;
                 send_cmd (to_uint8 ST7735_RAMWR);
                 send_data 0xF8; send_data 0x00 ]).
Proof.
  apply (C8_greentab_offsets_and_pixel init_globals).
  - on_panel.
  - on_panel.
  - on_panel.
Defined.

(** ** The further properties on the panel *)

Ltac small_table := split; [simpl; lia | repeat constructor; simpl; lia].

Lemma X2_commandList_ignores_trailing_bytes_witness :
  commandList (encode_table [mkEntry 0x11 [] (Some 255)] ++ [7; 7; 7])
    init_globals
  = commandList (encode_table [mkEntry 0x11 [] (Some 255)]) init_globals
  /\ commandList (encode_table [mkEntry 0x11 [] (Some 255)] ++ [7; 7; 7])
       init_globals
     = Some (tt, init_globals, replay [mkEntry 0x11 [] (Some 255)]).
Proof.
  refine (X2_commandList_ignores_trailing_bytes
            [mkEntry 0x11 [] (Some 255)] [7; 7; 7] init_globals _).
  small_table.
Defined.

Lemma X3_commandList_tables_compose_witness :
  (commandList (encode_table [mkEntry 0x11 [] (Some 255)]) ;;
   commandList (encode_table [mkEntry 0x36 [0xC0] None])) init_globals
  = commandList
      (encode_table ([mkEntry 0x11 [] (Some 255)]
                       ++ [mkEntry 0x36 [0xC0] None])) init_globals.
Proof.
  refine (X3_commandList_tables_compose
            [mkEntry 0x11 [] (Some 255)] [mkEntry 0x36 [0xC0] None]
            init_globals _).
  small_table.
Defined.

Lemma X4_commandList_sleeps_at_most_500_never_255_witness :
  exists t,
    commandList (encode_table [mkEntry 0x11 [] (Some 255)]) init_globals
    = Some (tt, init_globals, t)
    /\ Forall (fun ev => match ev with
                         | delay ms => 0 <= ms <= 500 /\ ms <> 255
                         | send_cmd _ | send_data _ => True
                         | _ => False
                         end) t.
Proof.
  refine (X4_commandList_sleeps_at_most_500_never_255
            [mkEntry 0x11 [] (Some 255)] init_globals _).
  small_table.
Defined.

Lemma X6_initR_again_keeps_green_offsets_witness :
  exists g' t,
    (_st7735_initR INITR_GREENTAB ;; _st7735_initR INITR_REDTAB) init_globals
    = Some (tt, g', t)
    /\ colstart g' = 2 /\ rowstart g' = 1.
Proof.
  refine (X6_initR_again_keeps_green_offsets INITR_REDTAB init_globals _).
  on_panel.
Defined.

Lemma X7_initR_unknown_variant_is_redtab_witness :
  _st7735_initR 7 init_globals = _st7735_initR INITR_REDTAB init_globals.
Proof.
  refine (X7_initR_unknown_variant_is_redtab 7 init_globals _ _ _ _);
    vm_compute; discriminate.
Defined.

Lemma X9_only_setRotation_writes_globals_witness :
  exists t,
    run_operation (op_fill_rect 126 158 5 7 0xF800) init_globals
    = Some (tt, init_globals, t).
Proof.
  refine (X9_only_setRotation_writes_globals
            (op_fill_rect 126 158 5 7 0xF800) init_globals _).
  intros m. discriminate.
Defined.

Lemma X13_fillRect_fills_its_window_witness :
  let x1 := Z.min (126 + 5 - 1) (_width init_globals - 1) in
  let y1 := Z.min (10 + 7 - 1) (_height init_globals - 1) in
  _st7735_fillRect 126 10 5 7 0xF800 init_globals
  = Some (tt, init_globals,
          addr_window (colstart init_globals) (rowstart init_globals)
            126 10 x1 y1
            ++ pushes (Z.to_nat ((x1 - 126 + 1) * (y1 - 10 + 1))) 0xF800).
Proof.
  refine (X13_fillRect_fills_its_window
            init_globals 126 10 5 7 0xF800 _ _ _ _ _ _ _); on_panel.
Defined.

Lemma X14_lines_fill_their_window_witness :
  (let y1 := Z.min (158 + 5 - 1) (_height init_globals - 1) in
   _st7735_drawFastVLine 3 158 5 0xF800 init_globals
   = Some (tt, init_globals,
           addr_window (colstart init_globals) (rowstart init_globals)
             3 158 3 y1
             ++ pushes (Z.to_nat (y1 - 158 + 1)) 0xF800))
  /\ (let x1 := Z.min (3 + 5 - 1) (_width init_globals - 1) in
      _st7735_drawFastHLine 3 158 5 0xF800 init_globals
      = Some (tt, init_globals,
              addr_window (colstart init_globals) (rowstart init_globals)
                3 158 x1 158
                ++ pushes (Z.to_nat (x1 - 3 + 1)) 0xF800)).
Proof.
  refine (X14_lines_fill_their_window
            init_globals 3 158 5 0xF800 _ _ _ _ _); on_panel.
Defined.

Lemma X15_lines_of_non_positive_length_witness :
  let n := if -1 =? 0 then 0 else 65536 + -1 in
  _st7735_drawFastVLine 3 4 (-1) 0xF800 init_globals
  = Some (tt, init_globals,
          addr_window (colstart init_globals) (rowstart init_globals)
            3 4 3 (4 + -1 - 1)
            ++ pushes (Z.to_nat n) 0xF800)
  /\ _st7735_drawFastHLine 3 4 (-1) 0xF800 init_globals
     = Some (tt, init_globals,
             addr_window (colstart init_globals) (rowstart init_globals)
               3 4 (3 + -1 - 1) 4
               ++ pushes (Z.to_nat n) 0xF800).
Proof.
  refine (X15_lines_of_non_positive_length
            init_globals 3 4 (-1) 0xF800 _ _ _ _ _ _); on_panel.
Defined.

Lemma X16_fillRect_of_non_positive_size_witness :
  exists x1 y1,
    _st7735_fillRect 3 4 0 7 0xF800 init_globals
    = Some (tt, init_globals,
            addr_window (colstart init_globals) (rowstart init_globals)
              3 4 x1 y1).
Proof.
  refine (X16_fillRect_of_non_positive_size
            init_globals 3 4 0 7 0xF800 _ _ _ _ _ _ _); on_panel.
Defined.

Lemma X17_fillRect_one_row_is_a_line_witness :
  _st7735_fillRect 126 158 5 1 0xF800 init_globals
  = _st7735_drawFastHLine 126 158 5 0xF800 init_globals
  /\ _st7735_fillRect 126 158 1 5 0xF800 init_globals
     = _st7735_drawFastVLine 126 158 5 0xF800 init_globals.
Proof.
  refine (X17_fillRect_one_row_is_a_line
            init_globals 126 158 5 0xF800 _ _ _ _); on_panel.
Defined.

Lemma X18_fillScreen_after_rotation_witness :
  exists g',
    (_st7735_setRotation 1 ;; _st7735_fillScreen 0xF800) init_globals
    = Some (tt, g',
            [send_cmd (to_uint8 ST7735_MADCTL);
             send_data (madctl_of_rotation (1 mod 4))]
              ++ addr_window (colstart init_globals) (rowstart init_globals)
                   0 0 (_width g' - 1) (_height g' - 1)
              ++ pushes (Z.to_nat (_width init_globals
                                   * _height init_globals)) 0xF800)
    /\ g' = globals_after (op_set_rotation 1) init_globals.
Proof.
  refine (X18_fillScreen_after_rotation 1 0xF800 init_globals _ _); on_panel.
Defined.

Lemma X20_initR_window_agrees_with_offsets_witness :
  exists g1 win,
    _st7735_initR INITR_GREENTAB init_globals
    = Some (tt, g1,
            delay 50 :: reset_events
              ++ replay Rcmd1_entries
              ++ win
              ++ replay Rcmd3_entries
              ++ (if to_uint8 INITR_GREENTAB =? INITR_BLACKTAB
                  then [send_cmd (to_uint8 ST7735_MADCTL); send_data 0xC0]
                  else []))
    /\ _st7735_setAddrWindow 0 0 127 159 g1
       = Some (tt, g1, win ++ [send_cmd (to_uint8 ST7735_RAMWR)]).
Proof.
  refine (X20_initR_window_agrees_with_offsets INITR_GREENTAB init_globals _ _);
    reflexivity.
Defined.
